(** * databayes: object loader, time-series adapter and relational adapter

    A shallow embedding of [databayes/core.py], [databayes/db/db_influx.py]
    and the [connect] method of [databayes/db/db_mysql.py], with the
    properties of the specification that concern them.

    Python values are an inductive type, dictionaries are association lists
    in insertion order, exceptions are a result type, and the calls into the
    backend client libraries (influxdb_client, mysql.connector, pandas,
    [ast.literal_eval]) are operations of an interface record over an
    abstract backend state. *)

From Stdlib Require Import ZArith Ascii DecimalString.
From stdpp Require Import gmap strings list.

Local Open Scope Z_scope.

(** Appending to a literal prefix computes. *)
#[local] Arguments String.append : simpl nomatch.

(** ** Exceptions and results *)

(** The exception classes the code raises or catches by name.  All of them
    derive from [Exception]; [MySQLError] is [mysql.connector.Error]. *)
Inductive exn_class :=
| ValueError | TypeError | SyntaxError | KeyError
| MySQLError
| OtherError (cls : string).

Record exn := Exn { exn_cls : exn_class; exn_msg : string }.

Inductive result (A : Type) :=
| Ok (a : A)
| Raise (e : exn).
Arguments Ok {A} a.
Arguments Raise {A} e.

Definition rbind {A B} (r : result A) (k : A → result B) : result B :=
  match r with
  | Ok a => k a
  | Raise e => Raise e
  end.

Global Instance exn_class_eq_dec : EqDecision exn_class.
Proof. solve_decision. Defined.

(** ** Python values *)

(** [VFloat] carries the float's [repr].  [VObj] is an instance of a pydantic
    model: its class name and its field values.  Any other object is known
    by its [str()] and its [repr()], in this order: [VOther] when it is
    hashable (a datetime, a date, a tuple of numbers), [VUnhashable] when it
    is not (a set, a tuple holding a list). *)
#[warnings="-register-all"]
Inductive pyval :=
| VNone
| VBool (b : bool)
| VInt (z : Z)
| VFloat (r : string)
| VStr (s : string)
| VList (l : list pyval)
| VDict (d : list (string * pyval))
| VObj (cls : string) (fields : list (string * pyval))
| VOther (s r : string)
| VUnhashable (s r : string).

Abbreviation pydict := (list (string * pyval)).

(** [isinstance(value, (str, int, float))]; [bool] is a subclass of [int]. *)
Definition is_primitive (v : pyval) : bool :=
  match v with
  | VStr _ | VInt _ | VFloat _ | VBool _ => true
  | _ => false
  end.

(** *** Dictionaries: association lists with unique keys, insertion order *)

Section Dict.
Context {V : Type}.

(** [d.get(k)] *)
Fixpoint dict_get (k : string) (d : list (string * V)) : option V :=
  match d with
  | [] => None
  | (k', v) :: r => if decide (k = k') then Some v else dict_get k r
  end.

(** [k in d] *)
Definition dict_in (k : string) (d : list (string * V)) : bool :=
  bool_decide (is_Some (dict_get k d)).

(** [d[k] = v]: an existing key keeps its place, a new one goes last. *)
Fixpoint dict_set (k : string) (v : V) (d : list (string * V)) : list (string * V) :=
  match d with
  | [] => [(k, v)]
  | (k', v') :: r =>
      if decide (k = k') then (k', v) :: r else (k', v') :: dict_set k v r
  end.

(** [del d[k]] *)
Fixpoint dict_del (k : string) (d : list (string * V)) : list (string * V) :=
  match d with
  | [] => []
  | (k', v') :: r => if decide (k = k') then r else (k', v') :: dict_del k r
  end.

(** [dict(a, **b)] *)
Definition dict_update (a b : list (string * V)) : list (string * V) :=
  foldl (λ acc kv, dict_set kv.1 kv.2 acc) a b.
End Dict.

(** *** [str] and [repr] *)

Definition str_of_Z (z : Z) : string := NilZero.string_of_int (Z.to_int z).

Fixpoint str_join (sep : string) (l : list string) : string :=
  match l with
  | [] => ""
  | [s] => s
  | s :: r => s +:+ sep +:+ str_join sep r
  end.

Fixpoint str_contains (c : ascii) (s : string) : bool :=
  match s with
  | EmptyString => false
  | String a r => if decide (a = c) then true else str_contains c r
  end.

(** The two hexadecimal digits of a character code. *)
Definition hex_digit (n : N) : ascii :=
  ascii_of_N (if (n <? 10)%N then 48 + n else 87 + n).

Definition hex_escape (a : ascii) : string :=
  String "\" (String "x" (String (hex_digit (N_of_ascii a / 16))
                            (String (hex_digit (N_of_ascii a mod 16)) ""))).

(** The ASCII control characters. *)
Definition is_control (a : ascii) : bool :=
  (N_of_ascii a <? 32)%N || (N_of_ascii a =? 127)%N.

(** The escapes of [repr] on a string with quote character [q]: the
    backslash, the quote, newline, carriage return and tab by their letter,
    the other control characters by their code.  Text beyond ASCII is taken
    to be printable and left as it is. *)
Fixpoint repr_escape (q : ascii) (s : string) : string :=
  match s with
  | EmptyString => ""
  | String a r =>
      (if decide (a = "\"%char) then "\\"
       else if decide (a = q) then String "\" (String q "")
       else if decide (a = "010"%char) then "\n"
       else if decide (a = "013"%char) then "\r"
       else if decide (a = "009"%char) then "\t"
       else if is_control a then hex_escape a
       else String a "") +:+ repr_escape q r
  end.

Definition squote : ascii := "'"%char.
Definition dquote : ascii := "034"%char.

(** [repr(s)]: single quotes, unless the text has a single quote and no
    double quote. *)
Definition repr_str (s : string) : string :=
  if str_contains squote s && negb (str_contains dquote s)
  then String dquote (repr_escape dquote s) +:+ String dquote ""
  else String squote (repr_escape squote s) +:+ String squote "".

(** [repr(v)]: the elements of a list and the values of a dictionary are
    printed with their [repr] in turn. *)
Fixpoint py_repr (v : pyval) : string :=
  match v with
  | VNone => "None"
  | VBool b => if b then "True" else "False"
  | VInt z => str_of_Z z
  | VFloat r => r
  | VStr s => repr_str s
  | VList l => "[" +:+ str_join ", " (map py_repr l) +:+ "]"
  | VDict d =>
      "{" +:+ str_join ", " (map (λ kv, repr_str kv.1 +:+ ": " +:+ py_repr kv.2) d) +:+ "}"
  | VObj c fs =>
      c +:+ "(" +:+ str_join ", " (map (λ kv, kv.1 +:+ "=" +:+ py_repr kv.2) fs) +:+ ")"
  | VOther _ r => r
  | VUnhashable _ r => r
  end.

(** [str(v)], as an f-string placeholder formats it.  A pydantic model prints
    its fields separated by spaces. *)
Definition py_str (v : pyval) : string :=
  match v with
  | VStr s => s
  | VOther s _ => s
  | VUnhashable s _ => s
  | VObj c fs => str_join " " (map (λ kv, kv.1 +:+ "=" +:+ py_repr kv.2) fs)
  | _ => py_repr v
  end.

(** *** String methods *)

(** [s.startswith(c)] and [s.endswith(c)] for a one-character [c]. *)
Definition startswith (c : ascii) (s : string) : bool :=
  match s with
  | String a _ => bool_decide (a = c)
  | EmptyString => false
  end.

Fixpoint endswith (c : ascii) (s : string) : bool :=
  match s with
  | EmptyString => false
  | String a EmptyString => bool_decide (a = c)
  | String _ r => endswith c r
  end.

(** [s.split(sep)] for a one-character separator: never an empty list. *)
Fixpoint py_split (sep : ascii) (s : string) : list string :=
  match s with
  | EmptyString => [""]
  | String a r =>
      if decide (a = sep) then "" :: py_split sep r
      else match py_split sep r with
           | h :: t => String a h :: t
           | [] => [String a ""]
           end
  end.

Definition slash : ascii := "/"%char.

(** ** The state of a run: log, standard output, backend *)

Inductive log_level := DEBUG | INFO | ERROR.

Record world (B : Type) := World {
  w_log : list (log_level * string);
  w_out : list string;
  w_bk : B;
}.
Arguments World {B} _ _ _.
Arguments w_log {B} _.
Arguments w_out {B} _.
Arguments w_bk {B} _.

(** A method call: it runs from a state to a returned value or a raised
    exception, and the state it leaves behind in either case. *)
Definition M (B A : Type) : Type := world B → result A * world B.

Definition ret {B A} (a : A) : M B A := λ w, (Ok a, w).
Definition raise {B A} (e : exn) : M B A := λ w, (Raise e, w).

Definition bind {B A C} (c : M B A) (k : A → M B C) : M B C :=
  λ w, match c w with
       | (Ok a, w') => k a w'
       | (Raise e, w') => (Raise e, w')
       end.

(** [try: c except Exception as e: h e] *)
Definition try_except {B A} (c : M B A) (h : exn → M B A) : M B A :=
  λ w, match c w with
       | (Ok a, w') => (Ok a, w')
       | (Raise e, w') => h e w'
       end.

(** [try: c except cls as e: h e] for one exception class. *)
Definition try_except_cls {B A} (cls : exn_class) (c : M B A) (h : exn → M B A) : M B A :=
  λ w, match c w with
       | (Ok a, w') => (Ok a, w')
       | (Raise e, w') => if decide (exn_cls e = cls) then h e w' else (Raise e, w')
       end.

Notation "'let!' x ':=' c 'in' k" := (bind c (λ x, k))
  (at level 10, x pattern, c at level 200, k at level 200).

(** [if self.logger: self.logger.<level>(msg)] *)
Definition log {B} (logger : bool) (lvl : log_level) (msg : string) : M B unit :=
  λ w, (Ok (), if logger then World (w_log w ++ [(lvl, msg)]) (w_out w) (w_bk w) else w).

(** [print(msg)] *)
Definition print {B} (msg : string) : M B unit :=
  λ w, (Ok (), World (w_log w) (w_out w ++ [msg]) (w_bk w)).

(** A call into the backend client. *)
Definition call {B A} (op : B → result A * B) : M B A :=
  λ w, let '(r, b) := op (w_bk w) in (r, World (w_log w) (w_out w) b).

(** A call that touches neither the log nor the backend. *)
Definition lift {B A} (r : result A) : M B A := λ w, (r, w).

(** ** The time-series adapter: [databayes/db/db_influx.py] *)

(** [InfluxDBConfig]: [org] defaults to [None]. *)
Record InfluxDBConfig := {
  url : string;
  org : option string;
  token : string;
}.

(** The handle [InfluxDBClient(url=, token=, org=, **params)] returns. *)
Record InfluxDBClient := {
  client_url : string;
  client_token : string;
  client_org : option string;
  client_params : pydict;
}.

(** Modelled from the spec: the fields of [DBBase], whose file db_base.py is
    not among the sources, as the adapter's methods read them: the explicit
    name the endpoint resolution tests, the optional logger, the
    configuration, and the backend handle [bkd] that [connect] stores. *)
Record DBInfluxDB := {
  name : option string;
  logger : bool;
  config : InfluxDBConfig;
  bkd : option InfluxDBClient;
}.

(** [Point]: [Point(m)], [.time(t)], [.tag(k, v)], [.field(k, v)]. *)
Record Point := {
  pt_measurement : pyval;
  pt_time : option pyval;
  pt_tags : pydict;
  pt_fields : pydict;
}.

Definition new_point (m : pyval) : Point :=
  {| pt_measurement := m; pt_time := None; pt_tags := []; pt_fields := [] |}.
Definition point_time (t : pyval) (p : Point) : Point :=
  {| pt_measurement := pt_measurement p; pt_time := Some t;
     pt_tags := pt_tags p; pt_fields := pt_fields p |}.
Definition point_tag (k : string) (v : pyval) (p : Point) : Point :=
  {| pt_measurement := pt_measurement p; pt_time := pt_time p;
     pt_tags := dict_set k v (pt_tags p); pt_fields := pt_fields p |}.
Definition point_field (k : string) (v : pyval) (p : Point) : Point :=
  {| pt_measurement := pt_measurement p; pt_time := pt_time p;
     pt_tags := pt_tags p; pt_fields := dict_set k v (pt_fields p) |}.

(** The operations of influxdb_client the adapter calls, over the state [B]
    of the server.  [bk_client] is the constructor
    [InfluxDBClient(url=, token=, org=, **params)], which does not reach the
    server; [bk_ping] answers [True] or [False]; [bk_write] is the whole
    [with write_api(...)] block; [bk_find_bucket_by_name] returns the bucket
    object, here its name. *)
Record influx_api (B : Type) := {
  bk_client : string → string → option string → pydict → result InfluxDBClient;
  bk_ping : B → result bool * B;
  bk_find_bucket_by_name : option string → B → result (option string) * B;
  bk_create_bucket : string → option string → B → result unit * B;
  bk_delete_bucket : string → B → result unit * B;
  bk_write : string → list Point → B → result unit * B;
  bk_query : string → B → result (list (list pydict)) * B;
  bk_delete : string → string → string → string → option string → B → result unit * B;
}.
Arguments bk_client {B} _.
Arguments bk_ping {B} _.
Arguments bk_find_bucket_by_name {B} _.
Arguments bk_create_bucket {B} _.
Arguments bk_delete_bucket {B} _.
Arguments bk_write {B} _.
Arguments bk_query {B} _.
Arguments bk_delete {B} _.

(** The truth value of [self.name] and of a resolved measurement: [None]
    and the empty string are false. *)
Definition truthy (s : option string) : bool :=
  match s with
  | Some EmptyString | None => false
  | Some _ => true
  end.

(** [str(x)] for an [x] that is a string or [None]. *)
Definition str_opt (s : option string) : string := default "None" s.

Definition _resolve_bucket_measurement (self : DBInfluxDB) (endpoint : string)
  : string * option string :=
  if truthy (name self) then
    (default "" (name self), Some endpoint)
  else
    let parts := py_split slash endpoint in
    let bucket := default "" (parts !! 0%nat) in
    let measurement := if decide (1 < length parts)%nat then parts !! 1%nat else None in
    (bucket, measurement).

(** *** Point construction in [put] *)

(** One round of [for idx in index]: the tag loop. *)
Definition tag_step (item : pydict) (time_field : string) (point : Point) (idx : string)
  : Point :=
  match dict_get idx item with
  | Some value =>
      if decide (idx ≠ time_field) then
        let idx := if is_primitive value then idx else py_str value in
        point_tag idx value point
      else point
  | None => point
  end.

(** One round of [for key, value in item.items()]: the field loop. *)
Definition field_step (index : list string) (time_field : string) (point : Point)
  (kv : string * pyval) : Point :=
  let '(key, value) := kv in
  if bool_decide (key ∉ index) && bool_decide (key ≠ "measurement")
     && bool_decide (key ≠ time_field) then
    let value := if is_primitive value then value else VStr (py_str value) in
    point_field key value point
  else point.

(** The body of [for item in data]. *)
Definition build_point (measurement : option string) (index : list string)
  (time_field : string) (item : pydict) : Point :=
  let point_measurement :=
    default (from_option VStr VNone measurement) (dict_get "measurement" item) in
  let point := new_point point_measurement in
  let point :=
    match dict_get time_field item with
    | Some t => point_time t point
    | None => point
    end in
  let point := foldl (tag_step item time_field) point index in
  foldl (field_step index time_field) point item.

Definition outcome (ok failed : nat) : pydict :=
  [("success_count", VInt (Z.of_nat ok)); ("failure_count", VInt (Z.of_nat failed))].

(** What a [connect] method hands back, next to the adapter as the call left
    it: [RetSelf] is that adapter object itself, [RetBool] a boolean. *)
Inductive connect_ret :=
| RetSelf
| RetBool (b : bool).

(** A call [f(k1=, ..., **params)]: the first key of [params] that repeats
    one of the keywords written out, if any. *)
Definition keyword_clash (given : list string) (params : pydict) : option string :=
  head (List.filter (λ k, bool_decide (k ∈ given)) (map fst params)).

(** The [TypeError] of such a call.  The text Python puts before the
    parentheses is the callee's qualified name. *)
Definition duplicate_keyword (callee k : string) : exn :=
  Exn TypeError (callee +:+ "() got multiple values for keyword argument '" +:+ k +:+ "'").

Section Influx.
Context {B : Type} (api : influx_api B).

Definition _ensure_bucket_exists (self : DBInfluxDB) (bucket_name : string) : M B unit :=
  let! found_bucket := call (bk_find_bucket_by_name api (Some bucket_name)) in
  match found_bucket with
  | Some _ => ret ()
  | None =>
      let! _ := log (logger self) INFO ("Creating bucket '" +:+ bucket_name +:+ "'.") in
      call (bk_create_bucket api bucket_name (org (config self)))
  end.

Definition put (self : DBInfluxDB) (endpoint : string) (data : list pydict)
  (index : list string) (time_field : string) : M B pydict :=
  let '(bucket, measurement) := _resolve_bucket_measurement self endpoint in
  let! _ := _ensure_bucket_exists self bucket in
  let points := map (build_point measurement index time_field) data in
  try_except
    (let! _ := call (bk_write api bucket points) in
     ret (outcome (length data) 0))
    (λ e,
      let! _ := log (logger self) ERROR
                  ("Failed to put data in InfluxDB: " +:+ exn_msg e) in
      let! _ := print ("Erreur: " +:+ exn_msg e) in
      ret (outcome 0 (length data))).

(** [result["failure_count"] > 0] on the dictionary [put] returns. *)
Definition failure_count (r : pydict) : Z :=
  match dict_get "failure_count" r with
  | Some (VInt n) => n
  | _ => 0
  end.

Definition update (self : DBInfluxDB) (endpoint : string) (data : pydict)
  (index : list string) (time_field : string) : M B bool :=
  let! r := put self endpoint [data] index time_field in
  if decide (failure_count r > 0) then
    let! _ := log (logger self) ERROR
                ("Failed to update data in InfluxDB: " +:+ py_str (VDict r)) in
    ret false
  else
    let! _ := log (logger self) INFO
                ("Data updated in InfluxDB: " +:+ py_str (VDict r)) in
    ret true.

(** The client is built before the [try]: a key of [params] that repeats
    [url], [token] or [org] makes the call itself raise, and so does a
    constructor that raises.  The value [ping] returns is dropped. *)
Definition connect (self : DBInfluxDB) (params : pydict) : M B (DBInfluxDB * connect_ret) :=
  match keyword_clash ["url"; "token"; "org"] params with
  | Some k => raise (duplicate_keyword "InfluxDBClient" k)
  | None =>
      let! client := lift (bk_client api (url (config self)) (token (config self))
                             (org (config self)) params) in
      let self :=
        {| name := name self; logger := logger self; config := config self;
           bkd := Some client |} in
      let! _ :=
        try_except
          (let! _ := call (bk_ping api) in
           log (logger self) INFO "InfluxDB connected successfully")
          (λ e, log (logger self) ERROR ("Failed to connect to InfluxDB: " +:+ exn_msg e)) in
      ret (self, RetSelf)
  end.

Definition reset (self : DBInfluxDB) (endpoint : option string) : M B unit :=
  let bucket :=
    match endpoint with
    | None => name self
    | Some endpoint => Some (_resolve_bucket_measurement self endpoint).1
    end in
  let! bucket_obj := call (bk_find_bucket_by_name api bucket) in
  match bucket_obj with
  | Some b =>
      try_except
        (let! _ := call (bk_delete_bucket api b) in
         log (logger self) INFO ("Deleted bucket '" +:+ str_opt bucket +:+ "'."))
        (λ e,
          let! _ := log (logger self) ERROR ("Failed to delete bucket: " +:+ exn_msg e) in
          raise e)
  | None => ret ()
  end.
End Influx.

(** *** Reading: the opportunistic parse of a cell *)

Definition lbrace : ascii := "{"%char.
Definition rbrace : ascii := "}"%char.

Section TryConvert.
(** [ast.literal_eval] of the Python library: the value a literal denotes,
    or the exception it raises on text that is none. *)
Variable literal_eval : string → result pyval.

Definition try_convert_to_dict (x : pyval) : result pyval :=
  match x with
  | VStr s =>
      if startswith lbrace s && endswith rbrace s then
        match literal_eval s with
        | Ok v => Ok v
        | Raise e =>
            if bool_decide (exn_cls e = ValueError ∨ exn_cls e = SyntaxError)
            then Ok x
            else Raise e
        end
      else Ok x
  | _ => Ok x
  end.
End TryConvert.

(** *** Reading: query synthesis *)

(** A one-character string holding the double quote of the Flux text. *)
Definition qq : string := String dquote "".

Definition filter_condition (kv : string * pyval) : string :=
  "r[" +:+ qq +:+ kv.1 +:+ qq +:+ "] == " +:+ qq +:+ py_str kv.2 +:+ qq.

Definition field_condition (field : string) : string :=
  "r._field == " +:+ qq +:+ field +:+ qq.

(** The text [get] sends to the query API, built by the same appends. *)
Definition get_query (bucket : string) (measurement : option string)
  (filter : pydict) (projection : list string) (limit : Z) : string :=
  let query := "from(bucket: " +:+ qq +:+ bucket +:+ qq +:+ ") |> range(start: 0)" in
  let query :=
    if truthy measurement then
      query +:+ " |> filter(fn: (r) => r._measurement == " +:+ qq
            +:+ str_opt measurement +:+ qq +:+ ")"
    else query in
  let filter_conditions := map filter_condition filter in
  let query :=
    match filter_conditions with
    | [] => query
    | _ => query +:+ " |> filter(fn: (r) => " +:+ str_join " and " filter_conditions +:+ ")"
    end in
  let query :=
    match projection with
    | [] => query
    | _ =>
        let fields_filter := str_join " or " (map field_condition projection) in
        query +:+ " |> filter(fn: (r) => " +:+ fields_filter +:+ ")"
    end in
  if decide (limit > 0) then query +:+ " |> limit(n: " +:+ str_of_Z limit +:+ ")"
  else query.

(** *** Reading: the table *)

(** A pandas [DataFrame] with the default row index: the column labels and,
    per row, one cell per column. *)
Record DataFrame := {
  columns : list string;
  cells : list (list pyval);
}.

Definition NaN : pyval := VFloat "nan".

(** The keys of the records in order of first appearance. *)
Definition frame_columns (data : list pydict) : list string :=
  foldl (λ cols item, foldl (λ cols kv, if bool_decide (kv.1 ∈ cols) then cols else cols ++ [kv.1])
                         cols item) [] data.

(** [pd.DataFrame(data)] on a list of records: a key a record lacks is NaN. *)
Definition pd_DataFrame (data : list pydict) : DataFrame :=
  let cols := frame_columns data in
  {| columns := cols;
     cells := map (λ item, map (λ c, default NaN (dict_get c item)) cols) data |}.

(** The operations of pandas that are taken as given.  [pd_reshape] is what
    [df.pivot(index, columns, values).reset_index()] computes once every
    named column exists (it raises [ValueError] on duplicate entries);
    [pd_to_datetime] and [pd_tz_convert] act on one cell of the time column. *)
Record pandas_api := {
  pd_reshape : DataFrame → list string → string → string → result DataFrame;
  pd_to_datetime : pyval → result pyval;
  pd_tz_convert : pyval → result pyval;
}.

(** [df.pivot(index=, columns=, values=).reset_index()]: selecting a column
    the frame lacks raises [KeyError], the index columns first. *)
Definition pivot_reset_index (pd : pandas_api) (df : DataFrame) (index : list string)
  (cols values : string) : result DataFrame :=
  match List.find (λ c, bool_decide (c ∉ columns df)) (index ++ [cols; values]) with
  | Some c => Raise (Exn KeyError c)
  | None => pd_reshape pd df index cols values
  end.

(** [for x in xs: f x], stopping at the first exception. *)
Fixpoint result_map {A C} (f : A → result C) (xs : list A) : result (list C) :=
  match xs with
  | [] => Ok []
  | x :: r => rbind (f x) (λ y, rbind (result_map f r) (λ ys, Ok (y :: ys)))
  end.

(** [df[col] = f(df[col])], cell by cell; [KeyError] without the column. *)
Definition frame_map_column (f : pyval → result pyval) (col : string) (df : DataFrame)
  : result DataFrame :=
  if bool_decide (col ∈ columns df) then
    rbind (result_map
             (λ row, result_map (λ cv : string * pyval, if decide (cv.1 = col) then f cv.2 else Ok cv.2)
                                (zip (columns df) row))
             (cells df))
          (λ rows, Ok {| columns := columns df; cells := rows |})
  else Raise (Exn KeyError col).

(** [df.map(f)]: every cell. *)
Definition frame_map (f : pyval → result pyval) (df : DataFrame) : result DataFrame :=
  rbind (result_map (result_map f) (cells df))
        (λ rows, Ok {| columns := columns df; cells := rows |}).

(** [df.rename(columns={old: new}, inplace=True)] *)
Definition frame_rename (old new : string) (df : DataFrame) : DataFrame :=
  {| columns := map (λ c, if decide (c = old) then new else c) (columns df);
     cells := cells df |}.

(** [df.to_dict("records")] *)
Definition frame_to_records (df : DataFrame) : list pydict :=
  map (λ row, dict_update [] (zip (columns df) row)) (cells df).

Definition not_tag_fields : list string :=
  ["result"; "table"; "_start"; "_stop"; "_time"; "_value"; "_field"; "_measurement"].

Inductive get_result :=
| AsFrame (df : DataFrame)
| AsRecords (rows : list pydict).

Section InfluxRead.
Context {B : Type} (api : influx_api B) (pd : pandas_api).
(** [ast.literal_eval], and [t.strftime(fmt)] of a timestamp object. *)
Context (literal_eval : string → result pyval).
Context (strftime : pyval → string → result string).

Definition get (self : DBInfluxDB) (endpoint : string) (filter : pydict)
  (projection : list string) (limit : Z) (time_field : string)
  (as_df use_local_tz : bool) : M B get_result :=
  let '(bucket, measurement) := _resolve_bucket_measurement self endpoint in
  let! _ := log (logger self) DEBUG
              ("Retrieving data from bucket: " +:+ bucket +:+ ", measurement: "
               +:+ str_opt measurement) in
  let query := get_query bucket measurement filter projection limit in
  let! _ := log (logger self) DEBUG ("Constructed InfluxDB Query: " +:+ query) in
  let! result := call (bk_query api query) in
  let data := concat result in
  let df := pd_DataFrame data in
  let tag_fields := List.filter (λ var, bool_decide (var ∉ not_tag_fields)) (columns df) in
  let! wide_df := lift (pivot_reset_index pd df (tag_fields ++ ["_time"]) "_field" "_value") in
  let! wide_df := lift (frame_map_column (pd_to_datetime pd) "_time" wide_df) in
  let! wide_df :=
    if use_local_tz then lift (frame_map_column (pd_tz_convert pd) "_time" wide_df)
    else ret wide_df in
  let! wide_df := lift (frame_map (try_convert_to_dict literal_eval) wide_df) in
  let wide_df :=
    if decide (time_field ≠ "_time") then frame_rename "_time" time_field wide_df
    else wide_df in
  let! _ := log (logger self) INFO
              ("Retrieved " +:+ str_of_Z (Z.of_nat (length data))
               +:+ " records from InfluxDB.") in
  ret (if as_df then AsFrame wide_df else AsRecords (frame_to_records wide_df)).

Definition strftime_format : string := "%Y-%m-%dT%H:%M:%S.%fZ".

Definition delete (self : DBInfluxDB) (endpoint : string)
  (start_timestamp stop_timestamp : pyval) (tags : pydict) : M B bool :=
  let '(bucket, measurement) := _resolve_bucket_measurement self endpoint in
  let delete_predicate := "_measurement=" +:+ qq +:+ str_opt measurement +:+ qq in
  let delete_predicate :=
    foldl (λ acc kv, acc +:+ " AND " +:+ kv.1 +:+ "=" +:+ qq +:+ py_str kv.2 +:+ qq)
          delete_predicate tags in
  try_except
    (let! formatted_start := lift (strftime start_timestamp strftime_format) in
     let! formatted_stop := lift (strftime stop_timestamp strftime_format) in
     let! _ := call (bk_delete api formatted_start formatted_stop delete_predicate
                       bucket (org (config self))) in
     let! _ := log (logger self) INFO
                 ("Deleted data in bucket '" +:+ bucket +:+ "' between '"
                  +:+ formatted_start +:+ "' and '" +:+ formatted_stop
                  +:+ "' with predicate '" +:+ delete_predicate +:+ "'.") in
     ret true)
    (λ e,
      let! _ := log (logger self) ERROR ("Failed to delete data: " +:+ exn_msg e) in
      ret false).
End InfluxRead.

(** ** The relational adapter's [connect]: [databayes/db/db_mysql.py] *)

(** Modelled from the spec: the connection parameters of [DMBSConfigBase]
    (host, port, credentials), declared in db_base.py, which is not among
    the sources. *)
Record DMBSConfigBase := {
  host : string;
  port : pyval;
  username : string;
  password : string;
  database : string;
}.

(** Modelled from the spec: the fields of [DBBase] as [DBMySQL.connect]
    uses them; the handle [bkd] is the connection's identifier. *)
Record DBMySQL := {
  my_name : option string;
  my_logger : bool;
  my_config : DMBSConfigBase;
  my_bkd : option Z;
}.

Module MySQL.
Section MySQL.
Context {B : Type}.
(** [mysql.connector.connect(host=, port=, user=, password=, database=,
    **params)] and the builtin [int]. *)
Context (mysql_connector_connect :
           string → Z → string → string → string → pydict → B → result Z * B).
Context (py_int : pyval → result Z).

(** The keywords [connect] writes out in its call of the connector. *)
Definition connector_keywords : list string :=
  ["host"; "port"; "user"; "password"; "database"].

(** The whole call is inside the [try], which catches the connector's
    [Error] only: what [int] raises, and the [TypeError] of a key of [params]
    that repeats a keyword, leave the method. *)
Definition connect (self : DBMySQL) (params : pydict) : M B (DBMySQL * connect_ret) :=
  try_except_cls MySQLError
    (let! p := lift (py_int (port (my_config self))) in
     let! h :=
       match keyword_clash connector_keywords params with
       | Some k => raise (duplicate_keyword "connect" k)
       | None =>
           call (mysql_connector_connect (host (my_config self)) p
                   (username (my_config self)) (password (my_config self))
                   (database (my_config self)) params)
       end in
     let self := {| my_name := my_name self; my_logger := my_logger self;
                    my_config := my_config self; my_bkd := Some h |} in
     let! _ := log (my_logger self) INFO "Connection to MySQL DB successful" in
     ret (self, RetBool true))
    (λ e,
      let! _ := log (my_logger self) ERROR ("Error connecting to MySQL DB: " +:+ exn_msg e) in
      ret (self, RetBool false)).
End MySQL.
End MySQL.

(** ** The object loader: [databayes/core.py] *)

(** A model class: its [__name__] and its constructor, called with the
    fields as keyword arguments: pydantic's validation, which either builds
    the instance or raises. *)
Record pyclass := {
  cls_name : string;
  cls_init : pydict → result pyval;
}.

(** Whether a value can be a dictionary key: lists, dictionaries, model
    instances and the objects marked unhashable cannot. *)
Definition py_hashable (v : pyval) : bool :=
  match v with
  | VList _ | VDict _ | VObj _ _ | VUnhashable _ _ => false
  | _ => true
  end.

(** [type(v).__name__] in the message of an unhashable key.  Of an object
    known by its text only the type's name is not kept. *)
Definition type_name (v : pyval) : string :=
  match v with
  | VList _ => "list"
  | VDict _ => "dict"
  | VObj c _ => c
  | _ => "object"
  end.

(** setup.py asks for [pydantic>=1.10.4], which both major versions of
    pydantic meet; [super().dict()] is not the same function in the two. *)
Inductive pydantic_version := Pydantic1 | Pydantic2.

(** [super().dict()] under pydantic 1, on every value: [BaseModel.dict] walks
    the fields, lists and dictionaries and calls [dict()] again on every
    model it meets, so the override of [ObjCore] adds the class name at every
    level. *)
Fixpoint to_dict_value (v : pyval) : pyval :=
  match v with
  | VObj c fields =>
      VDict (dict_update [("cls", VStr c)] (map (λ kv, (kv.1, to_dict_value kv.2)) fields))
  | VDict d => VDict (map (λ kv, (kv.1, to_dict_value kv.2)) d)
  | VList l => VList (map to_dict_value l)
  | _ => v
  end.

(** [super().dict()] under pydantic 2, on every value: [BaseModel.dict] hands
    over to [model_dump], whose serializer walks the nested models itself and
    never calls their [dict()]: a model inside comes out as the mapping of
    its fields, without the class name. *)
Fixpoint model_dump_value (v : pyval) : pyval :=
  match v with
  | VObj c fields => VDict (map (λ kv, (kv.1, model_dump_value kv.2)) fields)
  | VDict d => VDict (map (λ kv, (kv.1, model_dump_value kv.2)) d)
  | VList l => VList (map model_dump_value l)
  | _ => v
  end.

(** [super().dict()] of an instance with the given fields. *)
Definition super_dict (version : pydantic_version) (fields : pydict) : pydict :=
  match version with
  | Pydantic1 => map (λ kv, (kv.1, to_dict_value kv.2)) fields
  | Pydantic2 => map (λ kv, (kv.1, model_dump_value kv.2)) fields
  end.


(** [ObjCore.dict] under either version. *)
Definition ObjCore_dict_in (version : pydantic_version) (cls : string) (fields : pydict)
  : pydict :=
  dict_update [("cls", VStr cls)] (super_dict version fields).

Section Loader.
(** The root type [ObjMOSAIC] is named in [from_dict] and declared nowhere
    in core.py: its [__name__] and the list [ObjMOSAIC.get_subclasses()]
    are taken as given here, as they are once a class of that name has been
    bound in the module; [from_dict_in] below is the loader with or without
    that binding. *)
Variable ObjMOSAIC_name : string.
Variable ObjMOSAIC_get_subclasses : list pyclass.

(** [{cls.__name__: cls for cls in ObjMOSAIC.get_subclasses()}]: of two
    classes of one name the later stays. *)
Definition cls_sub_dict : gmap string pyclass :=
  foldl (λ m cls, <[cls_name cls := cls]> m) ∅ ObjMOSAIC_get_subclasses.

(** [cls_sub_dict.get(clsname)] *)
Definition cls_sub_dict_get (clsname : pyval) : result (option pyclass) :=
  if py_hashable clsname then
    Ok (match clsname with
        | VStr n => cls_sub_dict !! n
        | _ => None
        end)
  else Raise (Exn TypeError ("unhashable type: '" +:+ type_name clsname +:+ "'")).

(** The branch [if "cls" in obj_copy] of [from_dict]. *)
Definition construct (clsname : pyval) (obj_copy : pydict) : result pyval :=
  rbind (cls_sub_dict_get clsname) (λ cls,
    match cls with
    | None =>
        Raise (Exn ValueError
                 (py_str clsname +:+ " is not a subclass of " +:+ ObjMOSAIC_name))
    | Some cls => cls_init cls obj_copy
    end).

Fixpoint from_dict (obj : pyval) : result pyval :=
  match obj with
  | VDict d =>
      let build :=
        fix build (items : pydict) : result pydict :=
          match items with
          | [] => Ok []
          | (key, value) :: rest =>
              rbind (from_dict value) (λ v,
                rbind (build rest) (λ rest, Ok ((key, v) :: rest)))
          end in
      rbind (build d) (λ obj_copy,
        match dict_get "cls" obj_copy with
        | Some clsname => construct clsname (dict_del "cls" obj_copy)
        | None => Ok obj
        end)
  | VList l =>
      let each :=
        fix each (values : list pyval) : result (list pyval) :=
          match values with
          | [] => Ok []
          | value :: rest =>
              rbind (from_dict value) (λ v,
                rbind (each rest) (λ rest, Ok (v :: rest)))
          end in
      rbind (each l) (λ l, Ok (VList l))
  | _ => Ok obj
  end.

(** The two inner loops of [from_dict], by name. *)
Definition from_dict_items : pydict → result pydict :=
  result_map (λ kv : string * pyval, rbind (from_dict kv.2) (λ v, Ok (kv.1, v))).
Definition from_dict_values : list pyval → result (list pyval) :=
  result_map from_dict.
End Loader.

(** *** The loader and the name [ObjMOSAIC]

    core.py neither defines nor imports [ObjMOSAIC]: in the module as it
    stands the name is unbound, and evaluating it, which the branch
    [if "cls" in obj_copy] does first, raises [NameError]. *)
Inductive root_binding :=
| Unbound
| Bound (name : string) (subclasses : list pyclass).

Definition ObjMOSAIC_unbound : exn :=
  Exn (OtherError "NameError") "name 'ObjMOSAIC' is not defined".

Definition construct_in (globals : root_binding) (clsname : pyval) (obj_copy : pydict)
  : result pyval :=
  match globals with
  | Unbound => Raise ObjMOSAIC_unbound
  | Bound name subclasses => construct name subclasses clsname obj_copy
  end.

(** [from_dict], line by line as above, with the module's binding of
    [ObjMOSAIC] as an argument. *)
Fixpoint from_dict_in (globals : root_binding) (obj : pyval) : result pyval :=
  match obj with
  | VDict d =>
      let build :=
        fix build (items : pydict) : result pydict :=
          match items with
          | [] => Ok []
          | (key, value) :: rest =>
              rbind (from_dict_in globals value) (λ v,
                rbind (build rest) (λ rest, Ok ((key, v) :: rest)))
          end in
      rbind (build d) (λ obj_copy,
        match dict_get "cls" obj_copy with
        | Some clsname => construct_in globals clsname (dict_del "cls" obj_copy)
        | None => Ok obj
        end)
  | VList l =>
      let each :=
        fix each (values : list pyval) : result (list pyval) :=
          match values with
          | [] => Ok []
          | value :: rest =>
              rbind (from_dict_in globals value) (λ v,
                rbind (each rest) (λ rest, Ok (v :: rest)))
          end in
      rbind (each l) (λ l, Ok (VList l))
  | _ => Ok obj
  end.

(** ** The specification's wording, as definitions to compare with *)

(** The text before the first [sep] and, when there is a [sep], the text
    after it. *)
Fixpoint str_partition (sep : ascii) (s : string) : string * option string :=
  match s with
  | EmptyString => ("", None)
  | String a r =>
      if decide (a = sep) then ("", Some r)
      else let '(h, t) := str_partition sep r in (String a h, t)
  end.

(** The resolution rule as the specification words it: the explicit name and
    the endpoint, or else the substring before the first slash and the
    substring after it. *)
Definition spec_resolve (self : DBInfluxDB) (endpoint : string) : string * option string :=
  match name self with
  | Some (String _ _ as n) => (n, Some endpoint)
  | _ => str_partition slash endpoint
  end.

(** The five clauses of the read path, in the specification's order. *)
Definition bucket_clause (bucket : string) : string :=
  "from(bucket: " +:+ qq +:+ bucket +:+ qq +:+ ") |> range(start: 0)".
Definition measurement_clause (measurement : string) : string :=
  " |> filter(fn: (r) => r._measurement == " +:+ qq +:+ measurement +:+ qq +:+ ")".
Definition filter_clause (filter : pydict) : string :=
  " |> filter(fn: (r) => " +:+ str_join " and " (map filter_condition filter) +:+ ")".
Definition projection_clause (projection : list string) : string :=
  " |> filter(fn: (r) => " +:+ str_join " or " (map field_condition projection) +:+ ")".
Definition limit_clause (limit : Z) : string :=
  " |> limit(n: " +:+ str_of_Z limit +:+ ")".

Definition nonempty {A} (l : list A) : bool :=
  match l with
  | [] => false
  | _ :: _ => true
  end.

(** A clause that is there only under a condition. *)
Definition clause_if (cond : bool) (clause : string) : list string :=
  if cond then [clause] else [].

Definition spec_clauses (bucket : string) (measurement : option string)
  (filter : pydict) (projection : list string) (limit : Z) : list string :=
  [bucket_clause bucket]
  ++ clause_if (truthy measurement) (measurement_clause (str_opt measurement))
  ++ clause_if (nonempty filter) (filter_clause filter)
  ++ clause_if (nonempty projection) (projection_clause projection)
  ++ clause_if (bool_decide (limit > 0)) (limit_clause limit).

(** An adapter without explicit name or logger. *)
Definition unnamed : DBInfluxDB :=
  {| name := None; logger := false;
     config := {| url := "http://localhost:8086"; org := None; token := "" |};
     bkd := None |}.

(** ** A reference backend, to run the methods on

    A server in memory: its buckets, the batches written, the tables its
    query API answers with, and the names of the client calls that fail for
    now. *)
Record server := {
  failing : list string;
  buckets : list string;
  written : list (string * list Point);
  tables : list (list pydict);
}.

Definition server_error (op : string) : exn :=
  Exn (OtherError "ApiException") ("(503) " +:+ op +:+ " unavailable").

(** A client call named [op]: it raises while [op] is failing. *)
Definition serve {A} (op : string) (run : server → A * server) (s : server)
  : result A * server :=
  if bool_decide (op ∈ failing s) then (Raise (server_error op), s)
  else let '(a, s) := run s in (Ok a, s).

(** The client catches what goes wrong with its own ping and answers
    [False]. *)
Definition server_api : influx_api server := {|
  bk_client url token org params :=
    Ok {| client_url := url; client_token := token; client_org := org;
          client_params := params |};
  bk_ping s := (Ok (bool_decide ("ping" ∉ failing s)), s);
  bk_find_bucket_by_name b :=
    serve "find_bucket_by_name"
      (λ s, (match b with
             | Some b => if bool_decide (b ∈ buckets s) then Some b else None
             | None => None
             end, s));
  bk_create_bucket b _ :=
    serve "create_bucket"
      (λ s, ((), {| failing := failing s; buckets := buckets s ++ [b];
                    written := written s; tables := tables s |}));
  bk_delete_bucket b :=
    serve "delete_bucket"
      (λ s, ((), {| failing := failing s;
                    buckets := List.filter (λ b', bool_decide (b' ≠ b)) (buckets s);
                    written := written s; tables := tables s |}));
  bk_write b points :=
    serve "write"
      (λ s, ((), {| failing := failing s; buckets := buckets s;
                    written := written s ++ [(b, points)]; tables := tables s |}));
  bk_query _ := serve "query" (λ s, (tables s, s));
  bk_delete _ _ _ _ _ := serve "delete" (λ s, ((), s));
|}.

Definition start (s : server) : world server := World [] [] s.

(** An adapter with a logger and no explicit name. *)
Definition logged : DBInfluxDB :=
  {| name := None; logger := true;
     config := {| url := "http://localhost:8086"; org := Some "edgemind"; token := "t" |};
     bkd := None |}.

(** Stand-ins for the library functions the read path and [delete] call:
    the reshape, the timestamp conversions, [strftime] on a timestamp known
    by its text, and [ast.literal_eval] on four texts. *)
Definition plain_pandas : pandas_api := {|
  pd_reshape df _ _ _ := Ok df;
  pd_to_datetime v := Ok v;
  pd_tz_convert v := Ok v;
|}.

Definition strftime_text (t : pyval) (fmt : string) : result string :=
  match t with
  | VOther s _ => Ok s
  | _ => Raise (Exn (OtherError "AttributeError") "object has no attribute 'strftime'")
  end.

Definition literal_eval_sample (s : string) : result pyval :=
  if decide (s = "{'a': 1}") then Ok (VDict [("a", VInt 1)])
  else if decide (s = "{[1]: 2}") then Raise (Exn TypeError "unhashable type: 'list'")
  else if decide (s = "{a}") then Raise (Exn ValueError "malformed node or string")
  else Raise (Exn SyntaxError "invalid syntax").

(** Stand-ins for [mysql.connector.connect], against a server that is up
    or down, and for the builtin [int] on ints and decimal texts. *)
Definition mysql_connector_sample (host : string) (port : Z) (user password db : string)
  (params : pydict) (up : bool) : result Z * bool :=
  if up then (Ok 1, up)
  else (Raise (Exn MySQLError ("2003: Can't connect to MySQL server on '" +:+ host +:+ "'")),
        up).

Definition py_int_sample (v : pyval) : result Z :=
  match v with
  | VInt z => Ok z
  | VStr s =>
      match NilZero.int_of_string s with
      | Some d => Ok (Z.of_int d)
      | None => Raise (Exn ValueError ("invalid literal for int() with base 10: "
                                         +:+ repr_str s))
      end
  | _ => Raise (Exn TypeError "int() argument must be a string or a real number")
  end.

(** The adapter of the tutorial db_mysql_demo.py. *)
Definition mytestdb : DBMySQL :=
  {| my_name := Some "mytestdb"; my_logger := false;
     my_config := {| host := "127.0.0.1"; port := VStr "3306"; username := "root";
                     password := "my-secret-pw"; database := "mytestdb" |};
     my_bkd := None |}.

(** ** Values that survive a round trip through the loader *)


Section Roundtrip.
Variable subclasses : list pyclass.

End Roundtrip.

(** A model class that accepts any fields, and two of them as the subclasses
    of the root type. *)
Definition open_class (n : string) : pyclass :=
  {| cls_name := n; cls_init fields := Ok (VObj n fields) |}.

Definition two_classes : list pyclass := [open_class "Job"; open_class "Schedule"].

(** ** The rest of the time-series adapter: [size]

    [size] passes the organization to the query API, so its call is an
    operation of its own; [py_add] is the addition [count += value] runs. *)

(** [record.get_value()]: the record's [_value], [KeyError] without one. *)
Definition get_value (record : pydict) : result pyval :=
  match dict_get "_value" record with
  | Some v => Ok v
  | None => Raise (Exn KeyError "'_value'")
  end.

Definition size_query (bucket : string) (measurement : option string) : string :=
  "from(bucket: " +:+ qq +:+ bucket +:+ qq +:+ ") |> range(start: -1y) |> filter(fn: (r) => r["
  +:+ qq +:+ "_measurement" +:+ qq +:+ "] == " +:+ qq +:+ str_opt measurement +:+ qq
  +:+ ") |> count(column: " +:+ qq +:+ "_value" +:+ qq +:+ ")".

Section InfluxSize.
Context {B : Type}.
Context (bk_query_org : string → option string → B → result (list (list pydict)) * B).
Context (py_add : pyval → pyval → result pyval).

(** [for record in table.records: count += record.get_value()] *)
Fixpoint count_records (count : pyval) (records : list pydict) : result pyval :=
  match records with
  | [] => Ok count
  | record :: rest =>
      rbind (get_value record) (λ v,
        rbind (py_add count v) (λ count, count_records count rest))
  end.

(** [for table in tables: ...] *)
Fixpoint count_tables (count : pyval) (tables : list (list pydict)) : result pyval :=
  match tables with
  | [] => Ok count
  | table :: rest => rbind (count_records count table) (λ count, count_tables count rest)
  end.

Definition size (self : DBInfluxDB) (endpoint : string) : M B pyval :=
  let '(bucket, measurement) := _resolve_bucket_measurement self endpoint in
  let query := size_query bucket measurement in
  let! tables := call (bk_query_org query (org (config self))) in
  lift (count_tables (VInt 0) tables).
End InfluxSize.

(** ** The rest of the loader: [from_yaml] *)

(** [obj[key]] for a string key: a dictionary looks it up; nothing else can
    be subscripted by a string. *)
Definition py_getitem (obj : pyval) (key : string) : result pyval :=
  match obj with
  | VDict d =>
      match dict_get key d with
      | Some v => Ok v
      | None => Raise (Exn KeyError (repr_str key))
      end
  | _ => Raise (Exn TypeError "object is not subscriptable by a string")
  end.

(** [obj.setdefault(key, value)], for its effect on [obj]. *)
Definition py_setdefault (obj : pyval) (key : string) (value : pyval) : result pyval :=
  match obj with
  | VDict d => Ok (VDict (if dict_in key d then d else dict_set key value d))
  | _ => Raise (Exn (OtherError "AttributeError") "object has no attribute 'setdefault'")
  end.

(** [obj[key] = value] for a string key, for its effect on [obj]. *)
Definition py_setitem (obj : pyval) (key : string) (value : pyval) : result pyval :=
  match obj with
  | VDict d => Ok (VDict (dict_set key value d))
  | _ => Raise (Exn TypeError "object does not support item assignment by a string")
  end.

Section FromYaml.
Variable ObjMOSAIC_name : string.
Variable ObjMOSAIC_get_subclasses : list pyclass.
(** [open(file_path)] and [yaml.load(..., Loader=yaml.SafeLoader)]: the
    document of the file, or the error of reading or parsing it. *)
Variable yaml_load : string → result pyval.

(** The body of [from_yaml] once the file is loaded; [cls_name] is the
    [__name__] of the class [from_yaml] is called on. *)
Definition from_yaml_document (cls_name : string) (obj_dict : pyval) (add_cls : bool)
  (attr_header cls_attr : option string) : result pyval :=
  rbind (if truthy attr_header then py_getitem obj_dict (default "" attr_header)
         else Ok obj_dict) (λ obj_dict,
  rbind (if add_cls then py_setdefault obj_dict "cls" (VStr cls_name)
         else Ok obj_dict) (λ obj_dict,
  rbind (if truthy cls_attr then py_setitem obj_dict "cls" (VStr (default "" cls_attr))
         else Ok obj_dict) (λ obj_dict,
  from_dict ObjMOSAIC_name ObjMOSAIC_get_subclasses obj_dict))).

Definition from_yaml (cls_name : string) (file_path : string) (add_cls : bool)
  (attr_header cls_attr : option string) : result pyval :=
  rbind (yaml_load file_path) (λ obj_dict,
    from_yaml_document cls_name obj_dict add_cls attr_header cls_attr).
End FromYaml.

(** ** The rest of the relational adapter: [databayes/db/db_mysql.py] *)

(** The operations of the connection and of its cursor that the adapter
    calls, over the state [C] of the connection. *)
Record mysql_api (C : Type) := {
  my_cursor : bool → C → result unit * C;
  my_execute : string → list pyval → C → result unit * C;
  my_executemany : string → list (list pyval) → C → result unit * C;
  my_fetchall : C → result (list pydict) * C;
  my_cursor_close : C → result unit * C;
  my_commit : C → result unit * C;
  my_is_connected : C → result bool * C;
  my_close : C → result unit * C;
}.
Arguments my_cursor {C} _.
Arguments my_execute {C} _.
Arguments my_executemany {C} _.
Arguments my_fetchall {C} _.
Arguments my_cursor_close {C} _.
Arguments my_commit {C} _.
Arguments my_is_connected {C} _.
Arguments my_close {C} _.


Module MySQLQueries.
Section MySQLQueries.
Context {C : Type} (api : mysql_api C).

Definition query (self : DBMySQL) (sql : string) (params : option (list pyval))
  : M C (list pydict) :=
  try_except_cls MySQLError
    (let! _ := call (my_cursor api true) in
     let! _ := call (my_execute api sql (default [] params)) in
     let! result := call (my_fetchall api) in
     let! _ := call (my_cursor_close api) in
     ret result)
    (λ e,
      let! _ := log (my_logger self) ERROR ("Failed to execute query: " +:+ exn_msg e) in
      ret []).

Definition insert_sql (table : string) (first : pydict) : string :=
  let placeholders := str_join ", " (replicate (length first) "%s") in
  let columns := str_join ", " (first.*1) in
  "INSERT INTO " +:+ table +:+ " (" +:+ columns +:+ ") VALUES (" +:+ placeholders +:+ ")".


Definition update_sql (table : string) (data : pydict) (condition : string) : string :=
  let set_clause := str_join ", " (map (λ k, k +:+ " = %s") (data.*1)) in
  "UPDATE " +:+ table +:+ " SET " +:+ set_clause +:+ " WHERE " +:+ condition.

Definition update (self : DBMySQL) (table : string) (data : pydict) (condition : string)
  : M C unit :=
  let sql := update_sql table data condition in
  try_except_cls MySQLError
    (let! _ := call (my_cursor api false) in
     let! _ := call (my_execute api sql (data.*2)) in
     let! _ := call (my_commit api) in
     call (my_cursor_close api))
    (λ e,
      log (my_logger self) ERROR
        ("Failed to update table " +:+ table +:+ ": " +:+ exn_msg e)).

Definition delete (self : DBMySQL) (table : string) (condition : string) : M C unit :=
  let sql := "DELETE FROM " +:+ table +:+ " WHERE " +:+ condition in
  try_except_cls MySQLError
    (let! _ := call (my_cursor api false) in
     let! _ := call (my_execute api sql []) in
     let! _ := call (my_commit api) in
     call (my_cursor_close api))
    (λ e,
      log (my_logger self) ERROR
        ("Failed to delete from table " +:+ table +:+ ": " +:+ exn_msg e)).

Definition close (self : DBMySQL) : M C unit :=
  let! connected := call (my_is_connected api) in
  if (connected : bool) then
    let! _ := call (my_close api) in
    log (my_logger self) INFO "MySQL DB connection closed."
  else ret ().
End MySQLQueries.
End MySQLQueries.

(** ** Stand-ins for the added operations *)

(** The reference server's query API with an organization, and [+] on
    ints. *)
Definition server_query_org (q : string) (o : option string) : server → result (list (list pydict)) * server :=
  serve "query" (λ s, (tables s, s)).

Definition py_add_sample (a b : pyval) : result pyval :=
  match a, b with
  | VInt x, VInt y => Ok (VInt (x + y))
  | _, _ => Raise (Exn TypeError "unsupported operand type(s) for +=")
  end.

(** A MySQL connection in memory: the calls that fail for now, the rows a
    query fetches, and the statements executed so far. *)
Record mysql_server := {
  my_failing : list string;
  my_rows : list pydict;
  my_statements : list string;
}.

Definition mysql_serve {A} (op : string) (run : mysql_server → A * mysql_server)
  (s : mysql_server) : result A * mysql_server :=
  if bool_decide (op ∈ my_failing s)
  then (Raise (Exn MySQLError ("2013: Lost connection during " +:+ op)), s)
  else let '(a, s) := run s in (Ok a, s).

Definition mysql_execute_on (sql : string) (s : mysql_server) : unit * mysql_server :=
  ((), {| my_failing := my_failing s; my_rows := my_rows s;
          my_statements := my_statements s ++ [sql] |}).

Definition mysql_server_api : mysql_api mysql_server := {|
  my_cursor _ := mysql_serve "cursor" (λ s, ((), s));
  my_execute sql _ := mysql_serve "execute" (mysql_execute_on sql);
  my_executemany sql _ := mysql_serve "executemany" (mysql_execute_on sql);
  my_fetchall := mysql_serve "fetchall" (λ s, (my_rows s, s));
  my_cursor_close := mysql_serve "cursor_close" (λ s, ((), s));
  my_commit := mysql_serve "commit" (λ s, ((), s));
  my_is_connected := mysql_serve "is_connected" (λ s, (true, s));
  my_close := mysql_serve "close" (λ s, ((), s));
|}.

(** ** Calls that raise one class of exception only *)



(** * Properties *)

(** A closed decidable fact, by evaluation. *)
Ltac by_decide :=
  match goal with
  | |- ?P => apply (@bool_decide_unpack P _); vm_compute; exact I
  end.

(** ** Strings *)

Lemma str_app_assoc (a b c : string) : (a +:+ b) +:+ c = a +:+ (b +:+ c).
Proof. induction a as [|x a IH]; [done|]. cbn. by rewrite IH. Qed.

Lemma str_app_nil_r (a : string) : a +:+ "" = a.
Proof. induction a as [|x a IH]; [done|]. cbn. by rewrite IH. Qed.

Lemma py_split_partition sep s :
  py_split sep s =
    match str_partition sep s with
    | (h, None) => [h]
    | (h, Some t) => h :: py_split sep t
    end.
Proof.
  induction s as [|a s IH]; [done|]. cbn.
  destruct (decide (a = sep)); [done|].
  rewrite IH. by destruct (str_partition sep s) as [h [t|]].
Qed.

Example py_str_list : py_str (VList [VInt 1; VInt 2]) = "[1, 2]".
Proof. reflexivity. Qed.

Example py_str_dict :
  py_str (VDict [("success_count", VInt 0); ("failure_count", VInt 3)])
  = "{'success_count': 0, 'failure_count': 3}".
Proof. reflexivity. Qed.

Example py_split_two : py_split slash "db/cpu" = ["db"; "cpu"].
Proof. reflexivity. Qed.

Example py_split_edge : py_split slash "/a//" = [""; "a"; ""; ""].
Proof. reflexivity. Qed.


(** ** Endpoint resolution *)

(** The two segments [_resolve_bucket_measurement] keeps of a split. *)
Lemma resolve_by_partition (self : DBInfluxDB) (endpoint : string) :
  _resolve_bucket_measurement self endpoint =
    match name self with
    | Some (String _ _ as n) => (n, Some endpoint)
    | _ =>
        let '(bucket, rest) := str_partition slash endpoint in
        (bucket, (λ r, (str_partition slash r).1) <$> rest)
    end.
Proof.
  unfold _resolve_bucket_measurement.
  assert (Hsplit :
    let parts := py_split slash endpoint in
    (default "" (parts !! 0%nat),
     if decide (1 < length parts)%nat then parts !! 1%nat else None)
    = let '(bucket, rest) := str_partition slash endpoint in
      (bucket, (λ r, (str_partition slash r).1) <$> rest)).
  { cbn zeta. rewrite py_split_partition.
    destruct (str_partition slash endpoint) as [h [t|]]; [|done].
    rewrite (py_split_partition slash t).
    destruct (str_partition slash t) as [h' [t'|]] eqn:Ht; cbn; rewrite Ht;
      (destruct (decide _) as [|Hn]; [done|]; exfalso; apply Hn; cbn; lia). }
  destruct (name self) as [[|c n]|]; cbn; first [exact Hsplit | done].
Qed.

(** C3, as amended: with an explicit non-empty name the adapter resolves an
    endpoint to that name and the whole endpoint, slashes or not; otherwise
    the bucket is the text before the first slash, and the measurement is the
    text between the first slash and the next one (or the end), absent when
    the endpoint has no slash. *)
Theorem resolve_bucket_measurement_segments (self : DBInfluxDB) (endpoint : string) :
  _resolve_bucket_measurement self endpoint =
    match name self with
    | Some (String _ _ as n) => (n, Some endpoint)
    | _ =>
        let '(bucket, rest) := str_partition slash endpoint in
        (bucket, (λ r, (str_partition slash r).1) <$> rest)
    end.
Proof. apply resolve_by_partition. Qed.

(** C3, the claim as written fails: on an endpoint with two slashes the
    measurement is the middle segment, not everything after the first
    slash. *)
Lemma resolve_two_slashes :
  _resolve_bucket_measurement unnamed "db/cpu/load" = ("db", Some "cpu")
  ∧ spec_resolve unnamed "db/cpu/load" = ("db", Some "cpu/load")
  ∧ _resolve_bucket_measurement unnamed "db/cpu/load" ≠ spec_resolve unnamed "db/cpu/load".
Proof. split; [done|]. split; [done|]. discriminate. Qed.

(** On an endpoint with at most one slash both readings agree. *)
Lemma resolve_one_slash (self : DBInfluxDB) (b m : string) :
  str_contains slash b = false →
  str_contains slash m = false →
  _resolve_bucket_measurement self (b +:+ "/" +:+ m) = spec_resolve self (b +:+ "/" +:+ m).
Proof.
  intros Hb Hm. rewrite resolve_by_partition. unfold spec_resolve.
  destruct (name self) as [[|c n]|]; try done.
  all: assert (Hp : str_partition slash (b +:+ "/" +:+ m) = (b, Some m))
    by (clear -Hb; induction b as [|x b IH]; [done|]; cbn in *;
        destruct (decide (x = slash)); [done|]; by rewrite IH).
  all: rewrite Hp; cbn; f_equal; f_equal.
  all: clear -Hm; induction m as [|x m IH]; [done|]; cbn in *;
       destruct (decide (x = slash)); [done|];
       destruct (str_partition slash m) as [h t]; cbn in *; by rewrite (IH Hm).
Qed.

(** ** Query synthesis *)

Lemma str_join_empty_cons (s : string) (l : list string) :
  str_join "" (s :: l) = s +:+ str_join "" l.
Proof. destruct l; cbn; [by rewrite str_app_nil_r | done]. Qed.

Lemma str_join_empty_app (l1 l2 : list string) :
  str_join "" (l1 ++ l2) = str_join "" l1 +:+ str_join "" l2.
Proof.
  induction l1 as [|s l1 IH]; [done|].
  rewrite <- app_comm_cons, !str_join_empty_cons, IH. by rewrite str_app_assoc.
Qed.

Lemma str_join_clause_if (cond : bool) (c : string) :
  str_join "" (clause_if cond c) = if cond then c else "".
Proof. by destruct cond. Qed.

Example get_query_full :
  get_query "db" (Some "cpu") [("host", VStr "a"); ("dc", VInt 2)] ["load"; "temp"] 5
  = "from(bucket: " +:+ qq +:+ "db" +:+ qq +:+ ") |> range(start: 0)"
    +:+ " |> filter(fn: (r) => r._measurement == " +:+ qq +:+ "cpu" +:+ qq +:+ ")"
    +:+ " |> filter(fn: (r) => r[" +:+ qq +:+ "host" +:+ qq +:+ "] == " +:+ qq +:+ "a" +:+ qq
    +:+ " and r[" +:+ qq +:+ "dc" +:+ qq +:+ "] == " +:+ qq +:+ "2" +:+ qq +:+ ")"
    +:+ " |> filter(fn: (r) => r._field == " +:+ qq +:+ "load" +:+ qq
    +:+ " or r._field == " +:+ qq +:+ "temp" +:+ qq +:+ ")"
    +:+ " |> limit(n: 5)".
Proof. reflexivity. Qed.

(** C6: the text [get] sends is its clauses one after the other in the fixed
    order: the bucket selection over the full time range; the measurement
    filter, only when a measurement is resolved (and not empty); one filter
    joining the key/value equalities with [and], only when the filter mapping
    is not empty; one filter joining the field-name equalities with [or], only
    when the projection is not empty; the limit, only when it is positive. *)
Theorem get_query_clause_order (bucket : string) (measurement : option string)
  (filter : pydict) (projection : list string) (limit : Z) :
  get_query bucket measurement filter projection limit
  = str_join "" (spec_clauses bucket measurement filter projection limit).
Proof.
  unfold spec_clauses.
  rewrite !str_join_empty_app, !str_join_clause_if. cbn [str_join].
  unfold get_query, bucket_clause, measurement_clause, filter_clause,
    projection_clause, limit_clause.
  destruct (truthy measurement); destruct filter as [|kv filter];
    destruct projection as [|fd projection];
    destruct (decide (limit > 0)) as [Hl|Hl];
    rewrite ?(bool_decide_eq_true_2 _ Hl), ?(bool_decide_eq_false_2 _ Hl);
    cbn [map nonempty];
    by rewrite ?str_app_assoc, ?str_app_nil_r.
Qed.

(** ** Dictionaries *)

Lemma dict_get_set_eq {V} (k : string) (v : V) (d : list (string * V)) :
  dict_get k (dict_set k v d) = Some v.
Proof.
  induction d as [|[k' v'] d IH]; cbn.
  - by rewrite decide_True.
  - destruct (decide (k = k')) as [->|Hne]; cbn.
    + by rewrite decide_True.
    + by rewrite decide_False.
Qed.

Lemma dict_get_set_ne {V} (k k' : string) (v : V) (d : list (string * V)) :
  k ≠ k' → dict_get k (dict_set k' v d) = dict_get k d.
Proof.
  intros Hne. induction d as [|[k2 v2] d IH]; cbn.
  - by rewrite decide_False.
  - destruct (decide (k' = k2)) as [->|Hne2]; cbn.
    + by rewrite !decide_False.
    + destruct (decide (k = k2)); [done|apply IH].
Qed.

(** ** The write path: tags *)

Lemma field_step_tags index time_field point kv :
  pt_tags (field_step index time_field point kv) = pt_tags point.
Proof. unfold field_step. destruct kv as [key value]. by case_match. Qed.

Lemma build_point_tags measurement index time_field item :
  pt_tags (build_point measurement index time_field item)
  = pt_tags (foldl (tag_step item time_field)
               (match dict_get time_field item with
                | Some t => point_time t (new_point
                    (default (from_option VStr VNone measurement) (dict_get "measurement" item)))
                | None => new_point
                    (default (from_option VStr VNone measurement) (dict_get "measurement" item))
                end) index).
Proof.
  unfold build_point. generalize (foldl (tag_step item time_field)
    match dict_get time_field item with
    | Some t => point_time t (new_point
        (default (from_option VStr VNone measurement) (dict_get "measurement" item)))
    | None => new_point
        (default (from_option VStr VNone measurement) (dict_get "measurement" item))
    end index) as p.
  induction item as [|kv item IH] using rev_ind; intros p; [done|].
  by rewrite foldl_app; cbn; rewrite field_step_tags.
Qed.

(** What one round of the tag loop does to the tags: a primitive value goes
    under its key; a value of another type goes, unconverted, under the text
    [str(value)]. *)
Lemma tag_step_tags item time_field point idx value :
  dict_get idx item = Some value → idx ≠ time_field →
  pt_tags (tag_step item time_field point idx)
  = dict_set (if is_primitive value then idx else py_str value) value (pt_tags point).
Proof. intros Hv Hne. unfold tag_step. rewrite Hv. by rewrite decide_True. Qed.

Lemma tag_step_keeps item time_field point k idx value :
  dict_get idx item = Some value →
  (∀ v, dict_get k item = Some v → k ≠ time_field →
        is_primitive v = false → py_str v ≠ idx) →
  dict_get idx (pt_tags point) = Some value →
  dict_get idx (pt_tags (tag_step item time_field point k)) = Some value.
Proof.
  intros Hidx Hclob Hp. unfold tag_step.
  destruct (dict_get k item) as [v|] eqn:Hk; [|done].
  destruct (decide (k ≠ time_field)) as [Hne|]; [|done]. cbn.
  destruct (is_primitive v) eqn:Hprim.
  - destruct (decide (idx = k)) as [->|Hik].
    + rewrite dict_get_set_eq. congruence.
    + by rewrite dict_get_set_ne.
  - rewrite dict_get_set_ne; [done|]. intros ->. by eapply Hclob.
Qed.

Lemma foldl_tag_step_get item time_field idx value index point :
  dict_get idx item = Some value → idx ≠ time_field → is_primitive value = true →
  (∀ k v, k ∈ index → dict_get k item = Some v → k ≠ time_field →
          is_primitive v = false → py_str v ≠ idx) →
  idx ∈ index ∨ dict_get idx (pt_tags point) = Some value →
  dict_get idx (pt_tags (foldl (tag_step item time_field) point index)) = Some value.
Proof.
  intros Hidx Hne Hprim. revert point.
  induction index as [|k index IH]; intros point Hclob Hin.
  { destruct Hin as [Hin|Hp]; [by apply elem_of_nil in Hin | done]. }
  cbn. apply IH.
  { intros k' v Hk'. apply Hclob. by right. }
  destruct (decide (idx = k)) as [<-|Hik].
  - right. rewrite (tag_step_tags _ _ _ _ value), Hprim by done.
    apply dict_get_set_eq.
  - destruct Hin as [Hin|Hp].
    + left. apply elem_of_cons in Hin as [?|?]; [done|done].
    + right. apply tag_step_keeps; [done| |done].
      intros v. apply Hclob. by left.
Qed.

(** Where the tag loop does attach the key: in the point [put] builds for a
    record, every key of [index] that is in the record, is not the time field
    and has a primitive value (a string, an int or a float) is a tag under
    its own name with the record's value, provided no indexed value of
    another type prints as that key. *)
Theorem build_point_tag_primitive (measurement : option string) (index : list string)
  (time_field : string) (item : pydict) (idx : string) (value : pyval) :
  idx ∈ index →
  dict_get idx item = Some value →
  idx ≠ time_field →
  is_primitive value = true →
  (∀ k v, k ∈ index → dict_get k item = Some v → k ≠ time_field →
          is_primitive v = false → py_str v ≠ idx) →
  dict_get idx (pt_tags (build_point measurement index time_field item)) = Some value.
Proof.
  intros Hin Hidx Hne Hprim Hclob.
  rewrite build_point_tags. apply foldl_tag_step_get; auto.
Qed.

Lemma build_point_tag_primitive_witness :
  dict_get "host"
    (pt_tags (build_point (Some "cpu") ["host"; "dc"] "_time"
                [("_time", VOther "2024-05-01 00:00:00" "datetime.datetime(2024, 5, 1, 0, 0)");
                 ("host", VStr "a");
                 ("dc", VInt 2); ("load", VFloat "0.5")]))
  = Some (VStr "a").
Proof.
  apply (build_point_tag_primitive (Some "cpu") ["host"; "dc"] "_time"
           [("_time", VOther "2024-05-01 00:00:00" "datetime.datetime(2024, 5, 1, 0, 0)");
            ("host", VStr "a");
            ("dc", VInt 2); ("load", VFloat "0.5")] "host" (VStr "a")).
  - by_decide.
  - reflexivity.
  - discriminate.
  - reflexivity.
  - intros k v Hk Hv _ Hp Heq.
    apply elem_of_cons in Hk as [->|Hk];
      [vm_compute in Hv; injection Hv as <-; discriminate Hp|].
    apply elem_of_cons in Hk as [->|Hk];
      [vm_compute in Hv; injection Hv as <-; discriminate Hp|].
    by apply elem_of_nil in Hk.
Defined.

Lemma foldl_tag_step_absent item time_field name index point :
  (∀ k v, k ∈ index → dict_get k item = Some v → k ≠ time_field →
          (if is_primitive v then k else py_str v) ≠ name) →
  dict_get name (pt_tags point) = None →
  dict_get name (pt_tags (foldl (tag_step item time_field) point index)) = None.
Proof.
  revert point. induction index as [|k index IH]; intros point Hname Hp; [done|].
  cbn [foldl]. apply IH; [intros k' v Hk'; apply Hname; by right|].
  unfold tag_step. destruct (dict_get k item) as [v|] eqn:Hk; [|done].
  destruct (decide (k ≠ time_field)) as [Hne|]; [|done]. cbn.
  rewrite dict_get_set_ne; [done|].
  intros Heq. by eapply (Hname k v); [left| | |].
Qed.

(** C1, what the code does where the claim has the key attached: for a key
    of [index] that is in the record, is not the time field and whose value
    is not a string, an int or a float, the tag loop renames the tag to
    [str(value)] and attaches the value as it is.  With that key as the only
    index the point has the single tag [str(value)]; with any index the key
    itself is no tag of the point, unless an indexed value of another type
    happens to print as that key.  The field loop, a few lines below, keeps
    the key and converts the value instead. *)
Theorem build_point_tag_nonprimitive (measurement : option string) (index : list string)
  (time_field : string) (item : pydict) (idx : string) (value : pyval) :
  dict_get idx item = Some value →
  idx ≠ time_field →
  is_primitive value = false →
  pt_tags (build_point measurement [idx] time_field item) = [(py_str value, value)]
  ∧ ((∀ k v, k ∈ index → dict_get k item = Some v → k ≠ time_field →
             is_primitive v = false → py_str v ≠ idx) →
     dict_get idx (pt_tags (build_point measurement index time_field item)) = None).
Proof.
  intros Hidx Hne Hprim. split.
  - rewrite build_point_tags. cbn [foldl].
    rewrite (tag_step_tags _ _ _ _ value), Hprim by done.
    by destruct (dict_get time_field item).
  - intros Hclob. rewrite build_point_tags. apply foldl_tag_step_absent.
    + intros k v Hk Hv Hkt. destruct (is_primitive v) eqn:Hpv.
      * intros ->. congruence.
      * by apply (Hclob k v).
    + by destruct (dict_get time_field item).
Qed.

Lemma build_point_tag_nonprimitive_witness :
  pt_tags (build_point (Some "cpu") ["sensor"] "_time"
             [("sensor", VList [VInt 1; VInt 2]); ("load", VInt 7)])
  = [(py_str (VList [VInt 1; VInt 2]), VList [VInt 1; VInt 2])]
  ∧ ((∀ k v, k ∈ ["host"; "sensor"] →
             dict_get k [("sensor", VList [VInt 1; VInt 2]); ("load", VInt 7)] = Some v →
             k ≠ "_time" → is_primitive v = false → py_str v ≠ "sensor") →
     dict_get "sensor"
       (pt_tags (build_point (Some "cpu") ["host"; "sensor"] "_time"
                   [("sensor", VList [VInt 1; VInt 2]); ("load", VInt 7)]))
     = None).
Proof.
  apply (build_point_tag_nonprimitive (Some "cpu") ["host"; "sensor"] "_time"
           [("sensor", VList [VInt 1; VInt 2]); ("load", VInt 7)] "sensor"
           (VList [VInt 1; VInt 2])).
  - reflexivity.
  - discriminate.
  - reflexivity.
Defined.

(** C1, the code at a failing input: the record [{sensor: [1, 2], load: 7}]
    written with index [sensor] gets one tag, named by the printed list, and
    none named [sensor]. *)
Lemma build_point_tag_list_value :
  pt_tags (build_point (Some "cpu") ["sensor"] "_time"
             [("sensor", VList [VInt 1; VInt 2]); ("load", VInt 7)])
  = [("[1, 2]", VList [VInt 1; VInt 2])]
  ∧ dict_get "sensor"
      (pt_tags (build_point (Some "cpu") ["sensor"] "_time"
                  [("sensor", VList [VInt 1; VInt 2]); ("load", VInt 7)]))
    = None.
Proof. split; reflexivity. Qed.

(** ** The write path: the outcome of [put] *)

Section PutOutcome.
Context {B : Type} (api : influx_api B).

Lemma put_after_ensure self endpoint data index time_field (w w1 : world B) :
  _ensure_bucket_exists api self (_resolve_bucket_measurement self endpoint).1 w
    = (Ok (), w1) →
  (put api self endpoint data index time_field w).1
  = match (bk_write api (_resolve_bucket_measurement self endpoint).1
             (map (build_point (_resolve_bucket_measurement self endpoint).2
                     index time_field) data) (w_bk w1)).1 with
    | Ok _ => Ok (outcome (length data) 0)
    | Raise _ => Ok (outcome 0 (length data))
    end.
Proof.
  unfold put. destruct (_resolve_bucket_measurement self endpoint) as [bucket m].
  cbn [fst snd]. intros Hens. unfold bind at 1. rewrite Hens.
  unfold try_except, bind, call, ret.
  destruct (bk_write api bucket _ (w_bk w1)) as [[[]|e] b]; cbn; [done|].
  unfold log, print. by destruct (logger self).
Qed.

Lemma put_returns self endpoint data index time_field (w : world B) r :
  (put api self endpoint data index time_field w).1 = Ok r →
  r = outcome (length data) 0 ∨ r = outcome 0 (length data).
Proof.
  destruct (_ensure_bucket_exists api self
              (_resolve_bucket_measurement self endpoint).1 w) as [[[]|e] w1] eqn:Hens.
  - rewrite (put_after_ensure _ _ _ _ _ _ _ Hens).
    destruct (bk_write _ _ _ _).1; intros [= <-]; auto.
  - unfold put. destruct (_resolve_bucket_measurement self endpoint) as [bucket m].
    cbn [fst] in Hens. unfold bind at 1. by rewrite Hens.
Qed.

(** C2: once [put] reaches its batch write, an exception raised by the write
    makes it return exactly [{success_count: 0, failure_count: N}] and a
    write that raises none exactly [{success_count: N, failure_count: 0}],
    for the [N] records of the call; and whatever [put] returns is one of the
    two, never a partial count. *)
Theorem put_all_or_nothing (self : DBInfluxDB) (endpoint : string) (data : list pydict)
  (index : list string) (time_field : string) (w w1 : world B) :
  _ensure_bucket_exists api self (_resolve_bucket_measurement self endpoint).1 w
    = (Ok (), w1) →
  (put api self endpoint data index time_field w).1
  = match (bk_write api (_resolve_bucket_measurement self endpoint).1
             (map (build_point (_resolve_bucket_measurement self endpoint).2
                     index time_field) data) (w_bk w1)).1 with
    | Ok _ => Ok (outcome (length data) 0)
    | Raise _ => Ok (outcome 0 (length data))
    end
  ∧ ∀ w' r, (put api self endpoint data index time_field w').1 = Ok r →
            r = outcome (length data) 0 ∨ r = outcome 0 (length data).
Proof.
  intros Hens. split; [by apply put_after_ensure|].
  intros w' r. apply put_returns.
Qed.
End PutOutcome.

(** A batch of three records against a server whose write fails: nothing is
    counted as written. *)
Lemma put_all_or_nothing_witness :
  (put server_api logged "db/cpu"
     [[("host", VStr "a")]; [("host", VStr "b")]; [("host", VStr "c")]] ["host"] "_time"
     (start {| failing := ["write"]; buckets := ["db"]; written := []; tables := [] |})).1
  = Ok (outcome 0 3).
Proof.
  apply (put_all_or_nothing server_api logged "db/cpu"
           [[("host", VStr "a")]; [("host", VStr "b")]; [("host", VStr "c")]]
           ["host"] "_time"
           (start {| failing := ["write"]; buckets := ["db"]; written := []; tables := [] |})
           (start {| failing := ["write"]; buckets := ["db"]; written := []; tables := [] |})).
  vm_compute. reflexivity.
Defined.

(** ** Backend errors in [update], [delete] and [reset] *)

Section BackendErrors.
Context {B : Type} (api : influx_api B) (strftime : pyval → string → result string).

Lemma log_world (on : bool) lvl msg (w : world B) :
  log on lvl msg w
  = (Ok (), World (w_log w ++ if on then [(lvl, msg)] else []) (w_out w) (w_bk w)).
Proof. unfold log. destruct on, w; cbn; [done|]. by rewrite app_nil_r. Qed.

Lemma delete_returns self endpoint start_timestamp stop_timestamp tags (w : world B) :
  ∃ b, (delete api strftime self endpoint start_timestamp stop_timestamp tags w).1 = Ok b.
Proof.
  unfold delete. destruct (_resolve_bucket_measurement self endpoint) as [bucket m].
  unfold try_except, bind, lift, call, ret.
  destruct (strftime start_timestamp _) as [fs|e]; [|rewrite log_world; by eexists].
  destruct (strftime stop_timestamp _) as [fe|e]; [|rewrite log_world; by eexists].
  destruct (bk_delete api _ _ _ _ _ _) as [[[]|e] b]; rewrite log_world; by eexists.
Qed.

Lemma put_write_raises self endpoint data index time_field (w w1 : world B) e b :
  _ensure_bucket_exists api self (_resolve_bucket_measurement self endpoint).1 w
    = (Ok (), w1) →
  bk_write api (_resolve_bucket_measurement self endpoint).1
    (map (build_point (_resolve_bucket_measurement self endpoint).2 index time_field)
       data) (w_bk w1) = (Raise e, b) →
  put api self endpoint data index time_field w
  = (Ok (outcome 0 (length data)),
     World (w_log w1 ++ if logger self
                        then [(ERROR, "Failed to put data in InfluxDB: " +:+ exn_msg e)]
                        else [])
           (w_out w1 ++ ["Erreur: " +:+ exn_msg e]) b).
Proof.
  intros Hens Hwrite. unfold put.
  destruct (_resolve_bucket_measurement self endpoint) as [bucket m]. cbn [fst snd] in *.
  unfold bind at 1. rewrite Hens.
  unfold try_except, bind, call, ret. rewrite Hwrite.
  by rewrite log_world.
Qed.

Lemma update_write_raises self endpoint data index time_field (w w1 : world B) e b :
  _ensure_bucket_exists api self (_resolve_bucket_measurement self endpoint).1 w
    = (Ok (), w1) →
  bk_write api (_resolve_bucket_measurement self endpoint).1
    (map (build_point (_resolve_bucket_measurement self endpoint).2 index time_field)
       [data]) (w_bk w1) = (Raise e, b) →
  update api self endpoint data index time_field w
  = (Ok false,
     World ((w_log w1 ++ if logger self
                         then [(ERROR, "Failed to put data in InfluxDB: " +:+ exn_msg e)]
                         else [])
            ++ if logger self
               then [(ERROR, "Failed to update data in InfluxDB: "
                             +:+ py_str (VDict (outcome 0 1)))]
               else [])
           (w_out w1 ++ ["Erreur: " +:+ exn_msg e]) b).
Proof.
  intros Hens Hwrite. unfold update, bind.
  rewrite (put_write_raises _ _ _ _ _ _ _ _ _ Hens Hwrite).
  cbn [length]. rewrite decide_True by done. by rewrite log_world.
Qed.

Lemma reset_delete_raises self endpoint (w : world B) bucket_obj b1 e b2 :
  bk_find_bucket_by_name api
    (match endpoint with
     | None => name self
     | Some endpoint => Some (_resolve_bucket_measurement self endpoint).1
     end) (w_bk w) = (Ok (Some bucket_obj), b1) →
  bk_delete_bucket api bucket_obj b1 = (Raise e, b2) →
  reset api self endpoint w
  = (Raise e,
     World (w_log w ++ if logger self
                       then [(ERROR, "Failed to delete bucket: " +:+ exn_msg e)]
                       else [])
           (w_out w) b2).
Proof.
  intros Hfind Hdel. unfold reset, bind, call. rewrite Hfind.
  unfold try_except, bind, call. cbn -[log]. rewrite Hdel.
  by rewrite log_world.
Qed.

Lemma delete_backend_raises self endpoint start_timestamp stop_timestamp tags
  (w : world B) formatted_start formatted_stop e b :
  strftime start_timestamp strftime_format = Ok formatted_start →
  strftime stop_timestamp strftime_format = Ok formatted_stop →
  bk_delete api formatted_start formatted_stop
    (foldl (λ acc kv, acc +:+ " AND " +:+ kv.1 +:+ "=" +:+ qq +:+ py_str kv.2 +:+ qq)
       ("_measurement=" +:+ qq
        +:+ str_opt (_resolve_bucket_measurement self endpoint).2 +:+ qq) tags)
    (_resolve_bucket_measurement self endpoint).1 (org (config self)) (w_bk w)
    = (Raise e, b) →
  delete api strftime self endpoint start_timestamp stop_timestamp tags w
  = (Ok false,
     World (w_log w ++ if logger self
                       then [(ERROR, "Failed to delete data: " +:+ exn_msg e)]
                       else [])
           (w_out w) b).
Proof.
  intros Hstart Hstop Hdel. unfold delete.
  destruct (_resolve_bucket_measurement self endpoint) as [bucket m]. cbn [fst snd] in *.
  unfold try_except, bind, lift, call. rewrite Hstart, Hstop, Hdel.
  by rewrite log_world.
Qed.
End BackendErrors.

(** An error while looking up or creating the bucket is not handled by
    [put], nor by [update] above it. *)
Lemma update_ensure_raises {B} (api : influx_api B) self endpoint data index time_field
  (w w1 : world B) e :
  _ensure_bucket_exists api self (_resolve_bucket_measurement self endpoint).1 w
    = (Raise e, w1) →
  update api self endpoint data index time_field w = (Raise e, w1).
Proof.
  intros Hens. unfold update, put.
  destruct (_resolve_bucket_measurement self endpoint) as [bucket m]. cbn [fst] in Hens.
  unfold bind at 1. unfold bind at 1. by rewrite Hens.
Qed.

(** C7, as amended: [delete] never raises, and a backend error in it is
    caught, logged (when a logger is set) and turned into [False]; in
    [update] an error of the batch write is caught, logged and turned into
    [False]; in [reset] an error while deleting the bucket is caught, logged
    and then raised again to the caller. *)
Theorem backend_errors_by_method {B : Type} (api : influx_api B)
  (strftime : pyval → string → result string) (self : DBInfluxDB) (w : world B) :
  (∀ endpoint start_timestamp stop_timestamp tags,
     ∃ b, (delete api strftime self endpoint start_timestamp stop_timestamp tags w).1
          = Ok b)
  ∧ (∀ endpoint start_timestamp stop_timestamp tags formatted_start formatted_stop e b,
       strftime start_timestamp strftime_format = Ok formatted_start →
       strftime stop_timestamp strftime_format = Ok formatted_stop →
       bk_delete api formatted_start formatted_stop
         (foldl (λ acc kv, acc +:+ " AND " +:+ kv.1 +:+ "=" +:+ qq +:+ py_str kv.2 +:+ qq)
            ("_measurement=" +:+ qq
             +:+ str_opt (_resolve_bucket_measurement self endpoint).2 +:+ qq) tags)
         (_resolve_bucket_measurement self endpoint).1 (org (config self)) (w_bk w)
         = (Raise e, b) →
       delete api strftime self endpoint start_timestamp stop_timestamp tags w
       = (Ok false,
          World (w_log w ++ if logger self
                            then [(ERROR, "Failed to delete data: " +:+ exn_msg e)]
                            else [])
                (w_out w) b))
  ∧ (∀ endpoint data index time_field w1 e b,
       _ensure_bucket_exists api self (_resolve_bucket_measurement self endpoint).1 w
         = (Ok (), w1) →
       bk_write api (_resolve_bucket_measurement self endpoint).1
         (map (build_point (_resolve_bucket_measurement self endpoint).2 index time_field)
            [data]) (w_bk w1) = (Raise e, b) →
       update api self endpoint data index time_field w
       = (Ok false,
          World ((w_log w1
                  ++ if logger self
                     then [(ERROR, "Failed to put data in InfluxDB: " +:+ exn_msg e)]
                     else [])
                 ++ if logger self
                    then [(ERROR, "Failed to update data in InfluxDB: "
                                  +:+ py_str (VDict (outcome 0 1)))]
                    else [])
                (w_out w1 ++ ["Erreur: " +:+ exn_msg e]) b))
  ∧ (∀ endpoint bucket_obj b1 e b2,
       bk_find_bucket_by_name api
         (match endpoint with
          | None => name self
          | Some endpoint => Some (_resolve_bucket_measurement self endpoint).1
          end) (w_bk w) = (Ok (Some bucket_obj), b1) →
       bk_delete_bucket api bucket_obj b1 = (Raise e, b2) →
       reset api self endpoint w
       = (Raise e,
          World (w_log w ++ if logger self
                            then [(ERROR, "Failed to delete bucket: " +:+ exn_msg e)]
                            else [])
                (w_out w) b2)).
Proof.
  split; [intros; apply delete_returns|].
  split; [intros; by eapply delete_backend_raises|].
  split; [intros; by eapply update_write_raises|].
  intros; by eapply reset_delete_raises.
Qed.

(** An update against a server whose write fails answers [False], with both
    error lines in the log. *)
Lemma backend_errors_by_method_witness :
  update server_api logged "db/cpu" [("host", VStr "a"); ("load", VInt 3)] ["host"] "_time"
    (start {| failing := ["write"]; buckets := ["db"]; written := []; tables := [] |})
  = (Ok false,
     World [(ERROR, "Failed to put data in InfluxDB: (503) write unavailable");
            (ERROR, "Failed to update data in InfluxDB: {'success_count': 0, 'failure_count': 1}")]
           ["Erreur: (503) write unavailable"]
           {| failing := ["write"]; buckets := ["db"]; written := []; tables := [] |}).
Proof.
  apply (proj1 (proj2 (proj2
    (backend_errors_by_method server_api strftime_text logged
       (start {| failing := ["write"]; buckets := ["db"]; written := []; tables := [] |}))))
    "db/cpu" [("host", VStr "a"); ("load", VInt 3)] ["host"] "_time"
    (start {| failing := ["write"]; buckets := ["db"]; written := []; tables := [] |})
    (server_error "write")
    {| failing := ["write"]; buckets := ["db"]; written := []; tables := [] |}).
  - vm_compute. reflexivity.
  - vm_compute. reflexivity.
Defined.

(** C7, the claim as written fails: [reset] against a server whose bucket
    deletion fails logs the error and raises it to the caller. *)
Lemma reset_raises_to_caller :
  reset server_api logged (Some "db/cpu")
    (start {| failing := ["delete_bucket"]; buckets := ["db"]; written := []; tables := [] |})
  = (Raise (server_error "delete_bucket"),
     World [(ERROR, "Failed to delete bucket: (503) delete_bucket unavailable")] []
           {| failing := ["delete_bucket"]; buckets := ["db"]; written := [];
              tables := [] |}).
Proof. vm_compute. reflexivity. Qed.

(** ** What [connect] returns *)

Lemma keyword_clash_Some given (params : pydict) k :
  k ∈ given → dict_in k params = true → ∃ k', keyword_clash given params = Some k'.
Proof.
  intros Hk. unfold keyword_clash, dict_in.
  induction params as [|[k' v] params IH]; cbn.
  - done.
  - intros H. destruct (bool_decide (k' ∈ given)) eqn:Hk'; cbn; [by eexists|].
    apply IH. destruct (decide (k = k')) as [->|]; [|exact H].
    apply bool_decide_eq_false in Hk'. done.
Qed.

(** C8, as amended: once the client object is built, the time-series
    adapter's [connect] returns the adapter itself, holding the new client:
    after a ping that returns, [True] or [False] alike, with the success
    message in the log, and after a ping that raises with the failure in the
    log and nothing raised.  A parameter named [url], [token] or [org] makes
    it raise [TypeError] before anything is logged or sent, and what the
    client's constructor raises leaves [connect] too.  The relational
    adapter's [connect] returns a boolean instead: [True], with the success
    message in the log, when the connection is made, and [False], with the
    connector's [Error] in the log, when the connector raises it.  A log
    entry is written when the adapter has a logger. *)
Theorem connect_return_values {B C : Type} (api : influx_api B)
  (mysql_connector_connect :
     string → Z → string → string → string → pydict → C → result Z * C)
  (py_int : pyval → result Z) :
  (∀ self params (w : world B) client,
     keyword_clash ["url"; "token"; "org"] params = None →
     bk_client api (url (config self)) (token (config self)) (org (config self)) params
     = Ok client →
     (∀ b s, bk_ping api (w_bk w) = (Ok b, s) →
        connect api self params w
        = (Ok ({| name := name self; logger := logger self; config := config self;
                  bkd := Some client |}, RetSelf),
           World (w_log w ++ if logger self
                             then [(INFO, "InfluxDB connected successfully")] else [])
                 (w_out w) s))
     ∧ (∀ e s, bk_ping api (w_bk w) = (Raise e, s) →
          connect api self params w
          = (Ok ({| name := name self; logger := logger self; config := config self;
                    bkd := Some client |}, RetSelf),
             World (w_log w ++ if logger self
                               then [(ERROR, "Failed to connect to InfluxDB: " +:+ exn_msg e)]
                               else [])
                   (w_out w) s)))
  ∧ (∀ self params (w : world B) k,
       k ∈ ["url"; "token"; "org"] → dict_in k params = true →
       ∃ e, connect api self params w = (Raise e, w) ∧ exn_cls e = TypeError)
  ∧ (∀ self params (w : world B) e,
       keyword_clash ["url"; "token"; "org"] params = None →
       bk_client api (url (config self)) (token (config self)) (org (config self)) params
       = Raise e →
       connect api self params w = (Raise e, w))
  ∧ (∀ self params (w : world C) p h c,
       py_int (port (my_config self)) = Ok p →
       keyword_clash MySQL.connector_keywords params = None →
       mysql_connector_connect (host (my_config self)) p (username (my_config self))
         (password (my_config self)) (database (my_config self)) params (w_bk w)
         = (Ok h, c) →
       MySQL.connect mysql_connector_connect py_int self params w
       = (Ok ({| my_name := my_name self; my_logger := my_logger self;
                 my_config := my_config self; my_bkd := Some h |}, RetBool true),
          World (w_log w ++ if my_logger self
                            then [(INFO, "Connection to MySQL DB successful")] else [])
                (w_out w) c))
  ∧ (∀ self params (w : world C) p e c,
       py_int (port (my_config self)) = Ok p →
       keyword_clash MySQL.connector_keywords params = None →
       mysql_connector_connect (host (my_config self)) p (username (my_config self))
         (password (my_config self)) (database (my_config self)) params (w_bk w)
         = (Raise e, c) →
       exn_cls e = MySQLError →
       MySQL.connect mysql_connector_connect py_int self params w
       = (Ok (self, RetBool false),
          World (w_log w ++ if my_logger self
                            then [(ERROR, "Error connecting to MySQL DB: " +:+ exn_msg e)]
                            else [])
                (w_out w) c)).
Proof.
  split; [|split; [|split; [|split]]].
  - intros self params w client Hclash Hclient.
    split; intros r s Hping; unfold connect; rewrite Hclash;
      unfold try_except, bind, lift, call, ret; rewrite Hclient, Hping; cbn [logger];
      by rewrite log_world.
  - intros self params w k Hk Hin.
    destruct (keyword_clash_Some _ _ _ Hk Hin) as [k' E].
    unfold connect. rewrite E. by eexists.
  - intros self params w e Hclash Hc. unfold connect. rewrite Hclash.
    unfold bind, lift. by rewrite Hc.
  - intros self params w p h c Hp Hclash Hc.
    unfold MySQL.connect, try_except_cls, bind, lift, call. rewrite Hp, Hclash, Hc.
    by rewrite log_world.
  - intros self params w p e c Hp Hclash Hc He.
    unfold MySQL.connect, try_except_cls, bind, lift, call. rewrite Hp, Hclash, Hc.
    rewrite decide_True by done. by rewrite log_world.
Qed.

(** An adapter with a logger against a server whose ping fails: the client
    answers [False], [connect] logs a success and returns the adapter. *)
Lemma connect_return_values_witness :
  connect server_api logged [("timeout", VInt 5000)]
    (start {| failing := ["ping"]; buckets := []; written := []; tables := [] |})
  = (Ok ({| name := None; logger := true; config := config logged;
            bkd := Some {| client_url := url (config logged);
                           client_token := token (config logged);
                           client_org := org (config logged);
                           client_params := [("timeout", VInt 5000)] |} |}, RetSelf),
     World [(INFO, "InfluxDB connected successfully")] []
       {| failing := ["ping"]; buckets := []; written := []; tables := [] |}).
Proof.
  apply (proj1 (proj1 (connect_return_values (C := bool) server_api
                         mysql_connector_sample py_int_sample)
                  logged [("timeout", VInt 5000)]
                  (start {| failing := ["ping"]; buckets := []; written := [];
                            tables := [] |})
                  _ eq_refl eq_refl)
           false _ eq_refl).
Defined.

(** C8, the claim as written fails: the relational adapter's [connect]
    against a server that is up returns [True], not the adapter. *)
Lemma mysql_connect_returns_bool :
  (MySQL.connect mysql_connector_sample py_int_sample mytestdb [] (World [] [] true)).1
  = Ok ({| my_name := Some "mytestdb"; my_logger := false;
           my_config := my_config mytestdb; my_bkd := Some 1 |}, RetBool true)
  ∧ RetBool true ≠ RetSelf.
Proof. split; [vm_compute; reflexivity | discriminate]. Qed.

(** The time-series adapter called as [connect(url=...)]: the client is not
    built, nothing is logged, and the [TypeError] reaches the caller. *)
Example connect_url_parameter_raises :
  connect server_api logged [("url", VStr "http://influx:8086")]
    (start {| failing := []; buckets := []; written := []; tables := [] |})
  = (Raise (Exn TypeError
              "InfluxDBClient() got multiple values for keyword argument 'url'"),
     start {| failing := []; buckets := []; written := []; tables := [] |}).
Proof. vm_compute. reflexivity. Qed.

(** A connector that cannot reach the server, with a logger: [False], and
    the error in the log. *)
Example mysql_connect_down_logged :
  MySQL.connect mysql_connector_sample py_int_sample
    {| my_name := my_name mytestdb; my_logger := true; my_config := my_config mytestdb;
       my_bkd := None |} [] (World [] [] false)
  = (Ok ({| my_name := my_name mytestdb; my_logger := true;
            my_config := my_config mytestdb; my_bkd := None |}, RetBool false),
     World [(ERROR, "Error connecting to MySQL DB: 2003: Can't connect to MySQL server on '127.0.0.1'")]
       [] false).
Proof. vm_compute. reflexivity. Qed.

(** ** Reading: the parse of a cell *)

Section TryConvertFacts.
Variable literal_eval : string → result pyval.

(** X12: what [try_convert_to_dict] does by design: a value that is no string, or
    a string that does not open with a brace and close with one, passes
    through; a string that does is replaced by what [literal_eval] makes of
    it, and kept as it is when [literal_eval] raises [ValueError] or
    [SyntaxError]. *)
Lemma try_convert_to_dict_handled (x : pyval) :
  ((∀ s, x ≠ VStr s) → try_convert_to_dict literal_eval x = Ok x)
  ∧ (∀ s, x = VStr s → startswith lbrace s && endswith rbrace s = false →
          try_convert_to_dict literal_eval x = Ok x)
  ∧ (∀ s v, x = VStr s → startswith lbrace s && endswith rbrace s = true →
            literal_eval s = Ok v → try_convert_to_dict literal_eval x = Ok v)
  ∧ (∀ s e, x = VStr s → startswith lbrace s && endswith rbrace s = true →
            literal_eval s = Raise e →
            exn_cls e = ValueError ∨ exn_cls e = SyntaxError →
            try_convert_to_dict literal_eval x = Ok x).
Proof.
  repeat split.
  - intros Hx. destruct x; try done. by destruct (Hx s).
  - intros s -> Hl. cbn. by rewrite Hl.
  - intros s v -> Hl Hv. cbn. by rewrite Hl, Hv.
  - intros s e -> Hl He Hc. cbn. rewrite Hl, He. by rewrite bool_decide_eq_true_2.
Qed.

(** C9, the code at a failing input: on a string that looks like a mapping and
    on which [literal_eval] raises an exception other than [ValueError] and
    [SyntaxError], the original string is not returned: the exception leaves
    [try_convert_to_dict]. *)
Theorem try_convert_to_dict_uncaught (s : string) (e : exn) :
  startswith lbrace s && endswith rbrace s = true →
  literal_eval s = Raise e →
  exn_cls e ≠ ValueError →
  exn_cls e ≠ SyntaxError →
  try_convert_to_dict literal_eval (VStr s) = Raise e.
Proof.
  intros Hl He Hv Hs. cbn. rewrite Hl, He.
  rewrite bool_decide_eq_false_2; [done|]. by intros [?|?].
Qed.
End TryConvertFacts.

(** [ast.literal_eval] raises [TypeError] on a mapping text keyed by a list
    (the key is unhashable); the text is not handed back. *)
Lemma try_convert_to_dict_uncaught_witness :
  try_convert_to_dict literal_eval_sample (VStr "{[1]: 2}")
  = Raise (Exn TypeError "unhashable type: 'list'").
Proof.
  apply (try_convert_to_dict_uncaught literal_eval_sample "{[1]: 2}"
           (Exn TypeError "unhashable type: 'list'")).
  - reflexivity.
  - reflexivity.
  - discriminate.
  - discriminate.
Defined.

(** ** Reading: an empty result *)

(** C10: when the query answers with no record at all, [get] raises: the
    frame built from no record has no column, and the pivot's selection of
    the [_time] column raises [KeyError]; nothing, no empty table and no
    empty list of rows, is returned. *)
Theorem get_no_records_raises {B : Type} (api : influx_api B) (pd : pandas_api)
  (literal_eval : string → result pyval) (self : DBInfluxDB) (endpoint : string)
  (filter : pydict) (projection : list string) (limit : Z) (time_field : string)
  (as_df use_local_tz : bool) (w : world B) (result : list (list pydict)) (b : B) :
  bk_query api
    (get_query (_resolve_bucket_measurement self endpoint).1
       (_resolve_bucket_measurement self endpoint).2 filter projection limit)
    (w_bk w) = (Ok result, b) →
  concat result = [] →
  (get api pd literal_eval self endpoint filter projection limit time_field
     as_df use_local_tz w).1
  = Raise (Exn KeyError "_time").
Proof.
  intros Hq Hempty. unfold get.
  destruct (_resolve_bucket_measurement self endpoint) as [bucket m]. cbn [fst snd] in Hq.
  unfold bind at 1. rewrite log_world. unfold bind at 1. rewrite log_world.
  unfold bind at 1. unfold call. cbn [w_bk w_log w_out]. rewrite Hq, Hempty.
  reflexivity.
Qed.

(** X11: the text of [get_query] is what [get] hands to the query API, and
    [get] handles no error: an error of the API on that text is raised by
    [get] to its caller. *)
Lemma get_query_sent {B : Type} (api : influx_api B) (pd : pandas_api)
  (literal_eval : string → result pyval) (self : DBInfluxDB) (endpoint : string)
  (filter : pydict) (projection : list string) (limit : Z) (time_field : string)
  (as_df use_local_tz : bool) (w : world B) (e : exn) (b : B) :
  bk_query api
    (get_query (_resolve_bucket_measurement self endpoint).1
       (_resolve_bucket_measurement self endpoint).2 filter projection limit)
    (w_bk w) = (Raise e, b) →
  (get api pd literal_eval self endpoint filter projection limit time_field
     as_df use_local_tz w).1
  = Raise e.
Proof.
  intros Hq. unfold get.
  destruct (_resolve_bucket_measurement self endpoint) as [bucket m]. cbn [fst snd] in Hq.
  unfold bind at 1. rewrite log_world. unfold bind at 1. rewrite log_world.
  unfold bind at 1. unfold call. cbn [w_bk w_log w_out]. by rewrite Hq.
Qed.

(** A server without any point stored. *)
Lemma get_no_records_raises_witness :
  (get server_api plain_pandas literal_eval_sample logged "db/cpu" [] [] 0 "_time"
     false false
     (start {| failing := []; buckets := ["db"]; written := []; tables := [] |})).1
  = Raise (Exn KeyError "_time").
Proof.
  apply (get_no_records_raises server_api plain_pandas literal_eval_sample logged
           "db/cpu" [] [] 0 "_time" false false
           (start {| failing := []; buckets := ["db"]; written := []; tables := [] |})
           [] {| failing := []; buckets := ["db"]; written := []; tables := [] |}).
  - vm_compute. reflexivity.
  - reflexivity.
Defined.

(** ** The object loader *)

(** Induction on a value together with the values inside it. *)
Lemma pyval_nested_ind (P : pyval → Prop) :
  P VNone → (∀ b, P (VBool b)) → (∀ z, P (VInt z)) → (∀ r, P (VFloat r)) →
  (∀ s, P (VStr s)) →
  (∀ l, Forall P l → P (VList l)) →
  (∀ d, Forall (λ kv, P kv.2) d → P (VDict d)) →
  (∀ c fields, Forall (λ kv, P kv.2) fields → P (VObj c fields)) →
  (∀ s r, P (VOther s r)) →
  (∀ s r, P (VUnhashable s r)) →
  ∀ v, P v.
Proof.
  intros HN HB HI HF HS HL HD HO HX HU.
  fix IH 1. intros v. destruct v as [|b|z|r|s|l|d|c fields|s r|s r].
  - exact HN.
  - apply HB.
  - apply HI.
  - apply HF.
  - apply HS.
  - apply HL. induction l as [|x l IHl]; constructor; [apply IH|apply IHl].
  - apply HD. induction d as [|[k x] d IHd]; constructor; [apply IH|apply IHd].
  - apply HO. induction fields as [|[k x] d IHd]; constructor; [apply IH|apply IHd].
  - apply HX.
  - apply HU.
Qed.

Lemma dict_get_None_keys {V} (k : string) (d : list (string * V)) :
  dict_get k d = None ↔ k ∉ d.*1.
Proof.
  induction d as [|[k' v'] d IH]; cbn.
  - split; [intros _; apply not_elem_of_nil|done].
  - destruct (decide (k = k')) as [->|Hne].
    + split; [done|]. intros []. by left.
    + rewrite IH, not_elem_of_cons. tauto.
Qed.

Section LoaderFacts.
Variable ObjMOSAIC_name : string.
Variable ObjMOSAIC_get_subclasses : list pyclass.

Local Abbreviation from_dict' := (from_dict ObjMOSAIC_name ObjMOSAIC_get_subclasses).
Local Abbreviation from_dict_items' := (from_dict_items ObjMOSAIC_name ObjMOSAIC_get_subclasses).
Local Abbreviation from_dict_values' := (from_dict_values ObjMOSAIC_name ObjMOSAIC_get_subclasses).
Local Abbreviation construct' := (construct ObjMOSAIC_name ObjMOSAIC_get_subclasses).

Lemma from_dict_VDict d :
  from_dict' (VDict d)
  = rbind (from_dict_items' d) (λ obj_copy,
      match dict_get "cls" obj_copy with
      | Some clsname => construct' clsname (dict_del "cls" obj_copy)
      | None => Ok (VDict d)
      end).
Proof.
  cbn. f_equal. induction d as [|[k v] d IH]; [done|].
  cbn. destruct (from_dict' v); [|done]. cbn. by rewrite IH.
Qed.

Lemma from_dict_VList l :
  from_dict' (VList l) = rbind (from_dict_values' l) (λ l, Ok (VList l)).
Proof.
  cbn. f_equal. induction l as [|v l IH]; [done|].
  cbn. destruct (from_dict' v); [|done]. cbn. by rewrite IH.
Qed.





End LoaderFacts.


(** The loader where [ObjMOSAIC] is unbound: a value comes back as it is, or
    the name is missed. *)
Lemma from_dict_in_Unbound obj :
  from_dict_in Unbound obj = Ok obj ∨ from_dict_in Unbound obj = Raise ObjMOSAIC_unbound.
Proof.
  induction obj as [| | | | |l IH|d IH|c fields IH| |] using pyval_nested_ind;
    try (by left).
  - cbn.
    match goal with |- context [rbind (?f l) _] =>
      assert (Heach : f l = Ok l ∨ f l = Raise ObjMOSAIC_unbound);
        [|destruct Heach as [->| ->]; first [by left | by right]]
    end.
    induction IH as [|x l Hx _ IHl]; [by left|].
    destruct Hx as [->| ->]; [|by right]. cbn.
    destruct IHl as [->| ->]; first [by left | by right].
  - cbn.
    match goal with |- context [rbind (?f d) _] =>
      assert (Hbuild : f d = Ok d ∨ f d = Raise ObjMOSAIC_unbound);
        [|destruct Hbuild as [->| ->]; [|by right]]
    end.
    { induction IH as [|[k x] d Hx _ IHd]; [by left|].
      cbn in Hx. destruct Hx as [->| ->]; [|by right]. cbn.
      destruct IHd as [->| ->]; first [by left | by right]. }
    cbn. destruct (dict_get "cls" d); first [by left | by right].
Qed.

(** In the module as it stands, every mapping that carries the key [cls]
    ends in the [NameError], whatever it names. *)
Lemma from_dict_in_Unbound_cls d :
  dict_in "cls" d = true → from_dict_in Unbound (VDict d) = Raise ObjMOSAIC_unbound.
Proof.
  intros Hin. destruct (from_dict_in_Unbound (VDict d)) as [H|H]; [|done].
  exfalso. revert H. cbn.
  match goal with |- context [rbind ?b _] => destruct b as [obj_copy|e] eqn:Hb end;
    [|done].
  cbn. destruct (dict_get "cls" obj_copy) eqn:Hc; [done|].
  intros _. clear -Hin Hb Hc.
  assert (Hkeys : obj_copy.*1 = d.*1).
  { revert obj_copy Hb Hc. induction d as [|[k x] d IHd]; intros obj_copy.
    - by intros [= <-].
    - cbn. destruct (from_dict_in Unbound x); [|done]. cbn.
      match goal with |- context [rbind ?b _] => destruct b as [rest|] eqn:Hr end;
        [|done].
      cbn. intros [= <-] Hc. cbn. f_equal. cbn in Hc.
      destruct (decide ("cls" = k)); [done|].
      apply IHd; [|done|done].
      unfold dict_in in *. cbn in Hin. by rewrite decide_False in Hin. }
  apply dict_get_None_keys in Hc. rewrite Hkeys in Hc.
  apply dict_get_None_keys in Hc. unfold dict_in in Hin. by rewrite Hc in Hin.
Qed.


(** ** The round trip through [dict] and [from_dict] *)




Section RoundtripFacts.
Variable ObjMOSAIC_name : string.
Variable ObjMOSAIC_get_subclasses : list pyclass.

Local Abbreviation from_dict' := (from_dict ObjMOSAIC_name ObjMOSAIC_get_subclasses).
Local Abbreviation from_dict_items' :=
  (from_dict_items ObjMOSAIC_name ObjMOSAIC_get_subclasses).
Local Abbreviation from_dict_values' :=
  (from_dict_values ObjMOSAIC_name ObjMOSAIC_get_subclasses).






End RoundtripFacts.



(** Under pydantic 2 an instance inside another is serialized without its
    class name; a constructor that does not convert the mapping back leaves
    it a mapping, and the schedule comes back with another field value. *)
Example dict_from_dict_nested_pydantic2 :
  from_dict_in (Bound "ObjMOSAIC" two_classes)
    (VDict (ObjCore_dict_in Pydantic2 "Schedule"
              [("every", VInt 5); ("jobs", VList [VObj "Job" [("name", VStr "nightly")]])]))
  = Ok (VObj "Schedule"
          [("every", VInt 5); ("jobs", VList [VDict [("name", VStr "nightly")]])]).
Proof. reflexivity. Qed.

(** In the module as it stands, no serialized instance is rebuilt: its
    mapping carries the key [cls]. *)
Example dict_from_dict_unbound :
  from_dict_in Unbound
    (VDict (ObjCore_dict_in Pydantic1 "Job" [("name", VStr "nightly")]))
  = Raise ObjMOSAIC_unbound
  ∧ from_dict_in Unbound
      (VDict (ObjCore_dict_in Pydantic2 "Job" [("name", VStr "nightly")]))
    = Raise ObjMOSAIC_unbound.
Proof. split; reflexivity. Qed.

(** ** Runs on the reference backend *)

(** A first write creates the bucket, then stores the batch: the time goes to
    the point's time, the indexed key to its tags, the rest to its fields. *)
Example put_creates_bucket_and_writes :
  put server_api logged "db/cpu"
    [[("_time", VOther "2024-05-01 00:00:00" "datetime.datetime(2024, 5, 1, 0, 0)");
      ("host", VStr "a"); ("load", VInt 3);
      ("meta", VList [VInt 1])]]
    ["host"] "_time"
    (start {| failing := []; buckets := []; written := []; tables := [] |})
  = (Ok (outcome 1 0),
     World [(INFO, "Creating bucket 'db'.")] []
       {| failing := []; buckets := ["db"];
          written := [("db", [{| pt_measurement := VStr "cpu";
                                 pt_time := Some (VOther "2024-05-01 00:00:00" "datetime.datetime(2024, 5, 1, 0, 0)");
                                 pt_tags := [("host", VStr "a")];
                                 pt_fields := [("load", VInt 3); ("meta", VStr "[1]")] |}])];
          tables := [] |}).
Proof. vm_compute. reflexivity. Qed.

(** An error while looking the bucket up is raised by [put] itself. *)
Example put_lookup_error_raises :
  (put server_api logged "db/cpu" [[("host", VStr "a")]] ["host"] "_time"
     (start {| failing := ["find_bucket_by_name"]; buckets := ["db"]; written := [];
               tables := [] |})).1
  = Raise (server_error "find_bucket_by_name").
Proof. vm_compute. reflexivity. Qed.

(** A cell holding a mapping text keyed by a list stops the whole read. *)
Example get_cell_type_error :
  (get server_api plain_pandas literal_eval_sample logged "db/cpu" [] [] 0 "_time"
     false false
     (start {| failing := []; buckets := ["db"]; written := [];
               tables := [[[("_time", VOther "2024-05-01 00:00:00" "datetime.datetime(2024, 5, 1, 0, 0)");
                            ("_field", VStr "meta");
                            ("_value", VStr "{[1]: 2}")]]] |})).1
  = Raise (Exn TypeError "unhashable type: 'list'").
Proof. vm_compute. reflexivity. Qed.

(** A dictionary without the key [cls] is returned as it came, a typed
    dictionary inside it included. *)
Example from_dict_untyped_mapping :
  from_dict "ObjMOSAIC" two_classes
    (VDict [("job", VDict [("cls", VStr "Job"); ("name", VStr "nightly")])])
  = Ok (VDict [("job", VDict [("cls", VStr "Job"); ("name", VStr "nightly")])]).
Proof. reflexivity. Qed.

(** A list is rebuilt element by element. *)
Example from_dict_list :
  from_dict "ObjMOSAIC" two_classes
    (VList [VDict [("cls", VStr "Job"); ("name", VStr "nightly")]; VInt 4])
  = Ok (VList [VObj "Job" [("name", VStr "nightly")]; VInt 4]).
Proof. reflexivity. Qed.

(** A discriminator that is a list cannot be looked up at all. *)
Example from_dict_unhashable_cls :
  from_dict "ObjMOSAIC" two_classes (VDict [("cls", VList [VStr "Job"])])
  = Raise (Exn TypeError "unhashable type: 'list'").
Proof. reflexivity. Qed.

(** * Further properties of the code *)

(** ** The write path: fields, tags, time and measurement of a point *)

Lemma tag_step_fields item time_field point idx :
  pt_fields (tag_step item time_field point idx) = pt_fields point.
Proof. unfold tag_step. by repeat case_match. Qed.

Lemma foldl_tag_step_fields item time_field index point :
  pt_fields (foldl (tag_step item time_field) point index) = pt_fields point.
Proof.
  revert point. induction index as [|idx index IH]; intros point; [done|].
  cbn. by rewrite IH, tag_step_fields.
Qed.

(** What the field loop leaves under a key, for a record with distinct keys. *)
Lemma foldl_field_step_get index time_field (l : pydict) point key :
  NoDup (l.*1) →
  dict_get key (pt_fields (foldl (field_step index time_field) point l))
  = match dict_get key l with
    | Some v =>
        if bool_decide (key ∉ index) && bool_decide (key ≠ "measurement")
           && bool_decide (key ≠ time_field)
        then Some (if is_primitive v then v else VStr (py_str v))
        else dict_get key (pt_fields point)
    | None => dict_get key (pt_fields point)
    end.
Proof.
  revert point. induction l as [|[k v] l IH]; intros point Hnd; [done|].
  cbn in Hnd. apply NoDup_cons in Hnd as [Hk Hnd].
  cbn [foldl dict_get]. rewrite IH by done.
  destruct (decide (key = k)) as [->|Hne].
  - rewrite (proj2 (dict_get_None_keys k l) Hk). unfold field_step.
    destruct (bool_decide (k ∉ index) && bool_decide (k ≠ "measurement")
              && bool_decide (k ≠ time_field)); cbn; [apply dict_get_set_eq|done].
  - assert (Hsame : dict_get key (pt_fields (field_step index time_field point (k, v)))
                    = dict_get key (pt_fields point)).
    { unfold field_step.
      destruct (bool_decide (k ∉ index) && bool_decide (k ≠ "measurement")
                && bool_decide (k ≠ time_field)); cbn; [by apply dict_get_set_ne|done]. }
    by rewrite Hsame.
Qed.

(** X1: in the point built for a record with distinct keys, every key of the
    record that is not an index key, not [measurement] and not the time field
    is a field; it holds the record's value when that is a string, an int or
    a float, and the text [str(value)] otherwise. *)
Theorem build_point_field (measurement : option string) (index : list string)
  (time_field : string) (item : pydict) (key : string) (value : pyval) :
  NoDup (item.*1) →
  dict_get key item = Some value →
  key ∉ index → key ≠ "measurement" → key ≠ time_field →
  dict_get key (pt_fields (build_point measurement index time_field item))
  = Some (if is_primitive value then value else VStr (py_str value)).
Proof.
  intros Hnd Hkey Hidx Hm Ht. unfold build_point.
  rewrite foldl_field_step_get by done. rewrite Hkey.
  by rewrite !bool_decide_eq_true_2.
Qed.

Lemma build_point_field_witness :
  dict_get "meta"
    (pt_fields (build_point (Some "cpu") ["host"] "_time"
                  [("_time", VOther "2024-05-01 00:00:00" "datetime.datetime(2024, 5, 1, 0, 0)");
                   ("host", VStr "a");
                   ("load", VInt 3); ("meta", VList [VInt 1; VInt 2])]))
  = Some (VStr "[1, 2]").
Proof.
  apply (build_point_field (Some "cpu") ["host"] "_time"
           [("_time", VOther "2024-05-01 00:00:00" "datetime.datetime(2024, 5, 1, 0, 0)");
            ("host", VStr "a");
            ("load", VInt 3); ("meta", VList [VInt 1; VInt 2])] "meta"
           (VList [VInt 1; VInt 2])).
  - by_decide.
  - reflexivity.
  - by_decide.
  - discriminate.
  - discriminate.
Defined.

Lemma foldl_field_step_none index time_field (l : pydict) point key :
  key ∈ index ∨ key = "measurement" ∨ key = time_field →
  dict_get key (pt_fields point) = None →
  dict_get key (pt_fields (foldl (field_step index time_field) point l)) = None.
Proof.
  intros Hkey. revert point. induction l as [|[k v] l IH]; intros point Hp; [done|].
  cbn [foldl]. apply IH. unfold field_step.
  destruct (bool_decide (k ∉ index) && bool_decide (k ≠ "measurement")
            && bool_decide (k ≠ time_field)) eqn:Hel; [|done].
  cbn. rewrite dict_get_set_ne; [done|]. intros ->.
  apply andb_true_iff in Hel as [[Hi Hm]%andb_true_iff Ht].
  apply bool_decide_eq_true in Hi, Hm, Ht. by destruct Hkey as [?|[?|?]].
Qed.

(** X2: an index key, the key [measurement] and the time field never become
    fields of the point, whatever the record holds under them. *)
Theorem build_point_field_excluded (measurement : option string) (index : list string)
  (time_field : string) (item : pydict) (key : string) :
  key ∈ index ∨ key = "measurement" ∨ key = time_field →
  dict_get key (pt_fields (build_point measurement index time_field item)) = None.
Proof.
  intros Hkey. unfold build_point. apply foldl_field_step_none; [done|].
  rewrite foldl_tag_step_fields. by destruct (dict_get time_field item).
Qed.

Lemma build_point_field_excluded_witness :
  dict_get "measurement"
    (pt_fields (build_point (Some "cpu") ["host"] "_time"
                  [("measurement", VStr "gpu"); ("host", VStr "a"); ("load", VInt 3)]))
  = None.
Proof.
  apply (build_point_field_excluded (Some "cpu") ["host"] "_time"
           [("measurement", VStr "gpu"); ("host", VStr "a"); ("load", VInt 3)]
           "measurement").
  right. left. reflexivity.
Defined.

Lemma dict_set_Forall {V} (P : string * V → Prop) (k : string) (v : V)
  (d : list (string * V)) :
  P (k, v) → Forall P d → Forall P (dict_set k v d).
Proof.
  intros Hkv. induction 1 as [|[k' v'] d Hx Hd IH]; cbn.
  - by constructor.
  - destruct (decide (k = k')) as [->|]; by constructor.
Qed.

(** X3: every field value of a built point is a string, an int or a float:
    the write path hands no other type of field to the backend. *)
Theorem build_point_fields_primitive (measurement : option string) (index : list string)
  (time_field : string) (item : pydict) :
  Forall (λ kv, is_primitive kv.2 = true)
    (pt_fields (build_point measurement index time_field item)).
Proof.
  unfold build_point.
  assert (Hgen : ∀ l point,
            Forall (λ kv : string * pyval, is_primitive kv.2 = true) (pt_fields point) →
            Forall (λ kv : string * pyval, is_primitive kv.2 = true)
              (pt_fields (foldl (field_step index time_field) point l))).
  { induction l as [|[k v] l IH]; intros point Hp; [done|].
    cbn [foldl]. apply IH. unfold field_step.
    destruct (bool_decide (k ∉ index) && bool_decide (k ≠ "measurement")
              && bool_decide (k ≠ time_field)); [|done].
    cbn. apply dict_set_Forall; [|done].
    cbn. by destruct (is_primitive v) eqn:Hv. }
  apply Hgen. rewrite foldl_tag_step_fields.
  destruct (dict_get time_field item); constructor.
Qed.

(** X4: every tag of a built point comes from the record: its value is the
    record's value under some index key that is not the time field, and its
    name is that key when the value is primitive and the text [str(value)]
    otherwise.  No tag is invented and none carries a converted value. *)
Theorem build_point_tag_origin (measurement : option string) (index : list string)
  (time_field : string) (item : pydict) (k : string) (v : pyval) :
  dict_get k (pt_tags (build_point measurement index time_field item)) = Some v →
  ∃ idx, idx ∈ index ∧ dict_get idx item = Some v ∧ idx ≠ time_field
         ∧ k = if is_primitive v then idx else py_str v.
Proof.
  rewrite build_point_tags.
  assert (Hgen : ∀ l point,
            (∀ idx, idx ∈ l → idx ∈ index) →
            (∀ k v, dict_get k (pt_tags point) = Some v →
                    ∃ idx, idx ∈ index ∧ dict_get idx item = Some v ∧ idx ≠ time_field
                           ∧ k = if is_primitive v then idx else py_str v) →
            ∀ k v, dict_get k (pt_tags (foldl (tag_step item time_field) point l)) = Some v →
                   ∃ idx, idx ∈ index ∧ dict_get idx item = Some v ∧ idx ≠ time_field
                          ∧ k = if is_primitive v then idx else py_str v).
  { induction l as [|idx l IH]; intros point Hl Hp; [done|].
    cbn [foldl]. apply IH; [intros; apply Hl; by right|].
    intros k' v'. unfold tag_step.
    destruct (dict_get idx item) as [value|] eqn:Hidx; [|apply Hp].
    destruct (decide (idx ≠ time_field)) as [Hne|]; [|apply Hp]. cbn.
    destruct (decide (k' = if is_primitive value then idx else py_str value)) as [->|Hk].
    - rewrite dict_get_set_eq. intros [= <-]. exists idx.
      split; [apply Hl; by left|done].
    - rewrite dict_get_set_ne by done. apply Hp. }
  apply Hgen; [done|]. intros k' v'. by destruct (dict_get time_field item).
Qed.

Lemma build_point_tag_origin_witness :
  ∃ idx, idx ∈ ["sensor"] ∧
    dict_get idx [("sensor", VList [VInt 1; VInt 2]); ("load", VInt 7)]
      = Some (VList [VInt 1; VInt 2])
    ∧ idx ≠ "_time"
    ∧ "[1, 2]" = if is_primitive (VList [VInt 1; VInt 2]) then idx
                 else py_str (VList [VInt 1; VInt 2]).
Proof.
  apply (build_point_tag_origin (Some "cpu") ["sensor"] "_time"
           [("sensor", VList [VInt 1; VInt 2]); ("load", VInt 7)] "[1, 2]"
           (VList [VInt 1; VInt 2])).
  reflexivity.
Defined.

Lemma foldl_tag_step_time_measurement item time_field index point :
  pt_time (foldl (tag_step item time_field) point index) = pt_time point
  ∧ pt_measurement (foldl (tag_step item time_field) point index) = pt_measurement point.
Proof.
  revert point. induction index as [|idx index IH]; intros point; [done|].
  cbn [foldl]. destruct (IH (tag_step item time_field point idx)) as [-> ->].
  unfold tag_step. by repeat case_match.
Qed.

Lemma foldl_field_step_time_measurement index time_field (l : pydict) point :
  pt_time (foldl (field_step index time_field) point l) = pt_time point
  ∧ pt_measurement (foldl (field_step index time_field) point l) = pt_measurement point.
Proof.
  revert point. induction l as [|[k v] l IH]; intros point; [done|].
  cbn [foldl]. destruct (IH (field_step index time_field point (k, v))) as [-> ->].
  unfold field_step. by case_match.
Qed.

(** X5: a built point carries the record's value under the time field as its
    time, and no time when the record has none; its measurement is the
    record's own [measurement] entry when there is one, and the measurement
    resolved from the endpoint otherwise. *)
Theorem build_point_time_measurement (measurement : option string) (index : list string)
  (time_field : string) (item : pydict) :
  pt_time (build_point measurement index time_field item) = dict_get time_field item
  ∧ pt_measurement (build_point measurement index time_field item)
    = match dict_get "measurement" item with
      | Some m => m
      | None => match measurement with Some m => VStr m | None => VNone end
      end.
Proof.
  unfold build_point.
  destruct (foldl_field_step_time_measurement index time_field item
              (foldl (tag_step item time_field)
                 match dict_get time_field item with
                 | Some t =>
                     point_time t
                       (new_point (default (from_option VStr VNone measurement)
                                     (dict_get "measurement" item)))
                 | None =>
                     new_point (default (from_option VStr VNone measurement)
                                  (dict_get "measurement" item))
                 end index)) as [-> ->].
  destruct (foldl_tag_step_time_measurement item time_field index
              match dict_get time_field item with
              | Some t =>
                  point_time t
                    (new_point (default (from_option VStr VNone measurement)
                                  (dict_get "measurement" item)))
              | None =>
                  new_point (default (from_option VStr VNone measurement)
                               (dict_get "measurement" item))
              end) as [-> ->].
  by destruct (dict_get time_field item), (dict_get "measurement" item), measurement.
Qed.

(** ** [update] and [delete] of the time-series adapter *)

Lemma put_write_ok {B} (api : influx_api B) self endpoint data index time_field
  (w w1 : world B) b :
  _ensure_bucket_exists api self (_resolve_bucket_measurement self endpoint).1 w
    = (Ok (), w1) →
  bk_write api (_resolve_bucket_measurement self endpoint).1
    (map (build_point (_resolve_bucket_measurement self endpoint).2 index time_field)
       data) (w_bk w1) = (Ok (), b) →
  put api self endpoint data index time_field w
  = (Ok (outcome (length data) 0), World (w_log w1) (w_out w1) b).
Proof.
  intros Hens Hwrite. unfold put.
  destruct (_resolve_bucket_measurement self endpoint) as [bucket m]. cbn [fst snd] in *.
  unfold bind at 1. rewrite Hens.
  unfold try_except, bind, call, ret. by rewrite Hwrite.
Qed.

(** X6: once the bucket is looked up (and created if need be), [update]
    answers [True] exactly when the write of its one record raises nothing,
    and [False] otherwise. *)
Theorem update_reports_write {B : Type} (api : influx_api B) (self : DBInfluxDB)
  (endpoint : string) (data : pydict) (index : list string) (time_field : string)
  (w w1 : world B) :
  _ensure_bucket_exists api self (_resolve_bucket_measurement self endpoint).1 w
    = (Ok (), w1) →
  (update api self endpoint data index time_field w).1
  = Ok (match (bk_write api (_resolve_bucket_measurement self endpoint).1
                 [build_point (_resolve_bucket_measurement self endpoint).2
                    index time_field data] (w_bk w1)).1 with
        | Ok _ => true
        | Raise _ => false
        end).
Proof.
  intros Hens.
  destruct (bk_write api (_resolve_bucket_measurement self endpoint).1
              [build_point (_resolve_bucket_measurement self endpoint).2
                 index time_field data] (w_bk w1)) as [[[]|e] b] eqn:Hwrite; cbn [fst].
  - unfold update, bind.
    rewrite (put_write_ok api self endpoint [data] index time_field w w1 b Hens Hwrite).
    cbn [length]. rewrite decide_False by done. by rewrite log_world.
  - by rewrite (update_write_raises api self endpoint data index time_field w w1 e b
                  Hens Hwrite).
Qed.

Lemma update_reports_write_witness :
  (update server_api logged "db/cpu" [("host", VStr "a"); ("load", VInt 3)] ["host"] "_time"
     (start {| failing := []; buckets := ["db"]; written := []; tables := [] |})).1
  = Ok true.
Proof.
  apply (update_reports_write server_api logged "db/cpu"
           [("host", VStr "a"); ("load", VInt 3)] ["host"] "_time"
           (start {| failing := []; buckets := ["db"]; written := []; tables := [] |})
           (start {| failing := []; buckets := ["db"]; written := []; tables := [] |})).
  vm_compute. reflexivity.
Defined.

(** X7: an error of the bucket lookup or of the bucket creation is not
    handled by [put]: it is raised to the caller, with the state as the
    failed call left it and nothing written. *)
Theorem put_ensure_raises {B : Type} (api : influx_api B) (self : DBInfluxDB)
  (endpoint : string) (data : list pydict) (index : list string) (time_field : string)
  (w w1 : world B) (e : exn) :
  _ensure_bucket_exists api self (_resolve_bucket_measurement self endpoint).1 w
    = (Raise e, w1) →
  put api self endpoint data index time_field w = (Raise e, w1).
Proof.
  intros Hens. unfold put.
  destruct (_resolve_bucket_measurement self endpoint) as [bucket m]. cbn [fst] in Hens.
  unfold bind at 1. by rewrite Hens.
Qed.

Lemma put_ensure_raises_witness :
  put server_api logged "db/cpu" [[("host", VStr "a")]] ["host"] "_time"
    (start {| failing := ["create_bucket"]; buckets := []; written := []; tables := [] |})
  = (Raise (server_error "create_bucket"),
     World [(INFO, "Creating bucket 'db'.")] []
       {| failing := ["create_bucket"]; buckets := []; written := []; tables := [] |}).
Proof.
  apply (put_ensure_raises server_api logged "db/cpu" [[("host", VStr "a")]] ["host"]
           "_time"
           (start {| failing := ["create_bucket"]; buckets := []; written := [];
                     tables := [] |})).
  vm_compute. reflexivity.
Defined.

(** X8: [delete] answers [True] exactly when both timestamps format and the
    backend's delete call raises nothing; in every other case it answers
    [False]. *)
Theorem delete_true_iff {B : Type} (api : influx_api B)
  (strftime : pyval → string → result string) (self : DBInfluxDB) (endpoint : string)
  (start_timestamp stop_timestamp : pyval) (tags : pydict) (w : world B) :
  (delete api strftime self endpoint start_timestamp stop_timestamp tags w).1 = Ok true
  ↔ ∃ formatted_start formatted_stop b,
      strftime start_timestamp strftime_format = Ok formatted_start
      ∧ strftime stop_timestamp strftime_format = Ok formatted_stop
      ∧ bk_delete api formatted_start formatted_stop
          (foldl (λ acc kv, acc +:+ " AND " +:+ kv.1 +:+ "=" +:+ qq +:+ py_str kv.2 +:+ qq)
             ("_measurement=" +:+ qq
              +:+ str_opt (_resolve_bucket_measurement self endpoint).2 +:+ qq) tags)
          (_resolve_bucket_measurement self endpoint).1 (org (config self)) (w_bk w)
        = (Ok (), b).
Proof.
  unfold delete. destruct (_resolve_bucket_measurement self endpoint) as [bucket m].
  cbn [fst snd]. unfold try_except, bind, lift, call, ret.
  destruct (strftime start_timestamp _) as [fs|e].
  2: { rewrite log_world. split; [done|]. by intros (? & ? & ? & ? & _). }
  destruct (strftime stop_timestamp _) as [fe|e].
  2: { rewrite log_world. split; [done|]. by intros (? & ? & ? & _ & ? & _). }
  destruct (bk_delete api fs fe _ bucket _ (w_bk w)) as [[[]|e] b] eqn:Hdel;
    rewrite log_world; cbn [fst].
  - split; [|done]. intros _. by exists fs, fe, b.
  - split; [done|]. intros (fs' & fe' & b' & [= <-] & [= <-] & Hd).
    rewrite Hdel in Hd. done.
Qed.

(** X9: a timestamp [strftime] fails on makes [delete] answer [False]
    without any call to the backend: the server is as it was. *)
Theorem delete_bad_timestamp {B : Type} (api : influx_api B)
  (strftime : pyval → string → result string) (self : DBInfluxDB) (endpoint : string)
  (start_timestamp stop_timestamp : pyval) (tags : pydict) (w : world B) :
  (∃ e, strftime start_timestamp strftime_format = Raise e)
  ∨ (∃ e, strftime stop_timestamp strftime_format = Raise e) →
  (delete api strftime self endpoint start_timestamp stop_timestamp tags w).1 = Ok false
  ∧ w_bk (delete api strftime self endpoint start_timestamp stop_timestamp tags w).2
    = w_bk w.
Proof.
  intros Hbad. unfold delete.
  destruct (_resolve_bucket_measurement self endpoint) as [bucket m].
  unfold try_except, bind, lift, call, ret.
  destruct (strftime start_timestamp _) as [fs|e]; [|by rewrite log_world].
  destruct (strftime stop_timestamp _) as [fe|e]; [|by rewrite log_world].
  by destruct Hbad as [[e [=]]|[e [=]]].
Qed.

Lemma delete_bad_timestamp_witness :
  (delete server_api strftime_text logged "db/cpu" (VStr "yesterday") (VOther "2024-05-02" "datetime.date(2024, 5, 2)")
     [("host", VStr "a")]
     (start {| failing := []; buckets := ["db"]; written := []; tables := [] |})).1
  = Ok false.
Proof.
  apply (delete_bad_timestamp server_api strftime_text logged "db/cpu" (VStr "yesterday")
           (VOther "2024-05-02" "datetime.date(2024, 5, 2)") [("host", VStr "a")]
           (start {| failing := []; buckets := ["db"]; written := []; tables := [] |})).
  left. eexists. reflexivity.
Defined.

(** ** The read path *)

Lemma result_map_length {A C} (f : A → result C) (xs : list A) (ys : list C) :
  result_map f xs = Ok ys → length ys = length xs.
Proof.
  revert ys. induction xs as [|x xs IH]; intros ys; cbn; [by intros [= <-]|].
  destruct (f x); [|done]. cbn. destruct (result_map f xs) as [ys'|]; [|done].
  cbn. intros [= <-]. cbn. by rewrite (IH ys').
Qed.

Lemma frame_map_column_columns f col df df' :
  frame_map_column f col df = Ok df' → col ∈ columns df ∧ columns df' = columns df.
Proof.
  unfold frame_map_column. case_bool_decide as Hcol; [|done].
  destruct (result_map _ (cells df)); [|done]. cbn. by intros [= <-].
Qed.

Lemma frame_map_columns f df df' :
  frame_map f df = Ok df' → columns df' = columns df.
Proof.
  unfold frame_map. destruct (result_map _ (cells df)); [|done]. cbn. by intros [= <-].
Qed.

Lemma rename_time_column (time_field : string) (wide : DataFrame) :
  "_time" ∈ columns wide →
  time_field ∈ columns (if decide (time_field ≠ "_time")
                        then frame_rename "_time" time_field wide else wide)
  ∧ (time_field ≠ "_time" →
     "_time" ∉ columns (if decide (time_field ≠ "_time")
                        then frame_rename "_time" time_field wide else wide)).
Proof.
  intros Hin. destruct (decide (time_field ≠ "_time")) as [Hne|Heq].
  - unfold frame_rename. cbn [columns]. split.
    + apply list_elem_of_fmap. exists "_time". by rewrite decide_True.
    + intros _ Hin'. apply list_elem_of_fmap in Hin' as (c & Hc & _).
      destruct (decide (c = "_time")); congruence.
  - apply dec_stable in Heq. subst. split; [done|]. by intros [].
Qed.

(** X10: a table [get] returns has its time column under the name the caller
    asked for: [time_field] is one of its columns, and when that name is not
    [_time] no column named [_time] is left. *)
Theorem get_time_column {B : Type} (api : influx_api B) (pd : pandas_api)
  (literal_eval : string → result pyval) (self : DBInfluxDB) (endpoint : string)
  (filter : pydict) (projection : list string) (limit : Z) (time_field : string)
  (use_local_tz : bool) (w : world B) (df : DataFrame) :
  (get api pd literal_eval self endpoint filter projection limit time_field
     true use_local_tz w).1 = Ok (AsFrame df) →
  time_field ∈ columns df ∧ (time_field ≠ "_time" → "_time" ∉ columns df).
Proof.
  unfold get. destruct (_resolve_bucket_measurement self endpoint) as [bucket m].
  unfold bind at 1. rewrite log_world. unfold bind at 1. rewrite log_world.
  unfold bind at 1. unfold call. cbn [w_bk w_log w_out].
  destruct (bk_query api _ (w_bk w)) as [[res|e] b]; [|done].
  unfold bind at 1. unfold lift at 1.
  destruct (pivot_reset_index pd _ _ _ _) as [wide0|e]; [|done].
  unfold bind at 1. unfold lift at 1.
  destruct (frame_map_column (pd_to_datetime pd) "_time" wide0) as [wide1|e] eqn:H1; [|done].
  apply frame_map_column_columns in H1 as [Hin1 Hc1].
  assert (Htail : ∀ wide2 (w2 : world B),
            columns wide2 = columns wide1 →
            (bind (lift (frame_map (try_convert_to_dict literal_eval) wide2))
               (λ wide_df,
                  bind (log (logger self) INFO
                          ("Retrieved " +:+ str_of_Z (Z.of_nat (length (concat res)))
                           +:+ " records from InfluxDB."))
                    (λ _, ret (AsFrame
                                 (if decide (time_field ≠ "_time")
                                  then frame_rename "_time" time_field wide_df
                                  else wide_df)))) w2).1 = Ok (AsFrame df) →
            time_field ∈ columns df ∧ (time_field ≠ "_time" → "_time" ∉ columns df)).
  { intros wide2 w2 Hc2. unfold bind at 1. unfold lift.
    destruct (frame_map (try_convert_to_dict literal_eval) wide2) as [wide3|e] eqn:H3;
      [|done].
    apply frame_map_columns in H3.
    unfold bind. rewrite log_world. unfold ret. cbn [fst]. intros [= <-].
    apply rename_time_column. by rewrite H3, Hc2, Hc1. }
  destruct use_local_tz.
  - unfold bind at 1. unfold lift at 1.
    destruct (frame_map_column (pd_tz_convert pd) "_time" wide1) as [wide2|e] eqn:H2;
      [|done].
    apply frame_map_column_columns in H2 as [_ Hc2]. by apply Htail.
  - unfold bind at 1. unfold ret at 1. by apply Htail.
Qed.

Lemma get_time_column_witness :
  "ts" ∈ ["ts"; "_field"; "_value"]
  ∧ ("ts" ≠ "_time" → "_time" ∉ ["ts"; "_field"; "_value"]).
Proof.
  apply (get_time_column server_api plain_pandas literal_eval_sample logged "db/cpu"
           [] [] 0 "ts" false
           (start {| failing := []; buckets := ["db"]; written := [];
                     tables := [[[("_time", VOther "2024-05-01 00:00:00" "datetime.datetime(2024, 5, 1, 0, 0)");
                                  ("_field", VStr "load"); ("_value", VInt 3)]]] |})
           {| columns := ["ts"; "_field"; "_value"];
              cells := [[VOther "2024-05-01 00:00:00" "datetime.datetime(2024, 5, 1, 0, 0)";
                VStr "load"; VInt 3]] |}).
  vm_compute. reflexivity.
Defined.

(** The query API failing on the text [get] sends: [get] fails with it. *)
Lemma get_query_sent_witness :
  (get server_api plain_pandas literal_eval_sample logged "db/cpu" [] [] 0 "_time"
     false false
     (start {| failing := ["query"]; buckets := ["db"]; written := []; tables := [] |})).1
  = Raise (server_error "query").
Proof.
  apply (get_query_sent server_api plain_pandas literal_eval_sample logged "db/cpu"
           [] [] 0 "_time" false false
           (start {| failing := ["query"]; buckets := ["db"]; written := [];
                     tables := [] |})
           (server_error "query")
           {| failing := ["query"]; buckets := ["db"]; written := []; tables := [] |}).
  vm_compute. reflexivity.
Defined.

(** A mapping text is parsed, a text the parser rejects is kept. *)
Lemma try_convert_to_dict_handled_witness :
  try_convert_to_dict literal_eval_sample (VStr "{'a': 1}") = Ok (VDict [("a", VInt 1)])
  ∧ try_convert_to_dict literal_eval_sample (VStr "{a}") = Ok (VStr "{a}").
Proof.
  split.
  - apply (proj1 (proj2 (proj2 (try_convert_to_dict_handled literal_eval_sample
                                  (VStr "{'a': 1}"))))
             "{'a': 1}" (VDict [("a", VInt 1)])); reflexivity.
  - apply (proj2 (proj2 (proj2 (try_convert_to_dict_handled literal_eval_sample
                                  (VStr "{a}"))))
             "{a}" (Exn ValueError "malformed node or string"));
      [reflexivity|reflexivity|reflexivity|by left].
Defined.

(** ** [size] *)

Section SizeFacts.
Context {B : Type}.
Context (bk_query_org : string → option string → B → result (list (list pydict)) * B).
Context (py_add : pyval → pyval → result pyval).

Lemma count_tables_concat count tables :
  count_tables py_add count tables = count_records py_add count (concat tables).
Proof.
  revert count. induction tables as [|t tables IH]; intros count; [done|].
  cbn. revert count. induction t as [|r t IHt]; intros count; cbn; [apply IH|].
  destruct (get_value r) as [v|]; [|done]. cbn.
  destruct (py_add count v) as [c|]; [|done]. cbn. apply IHt.
Qed.

(** X13: [size] of an endpoint whose query answers with no record is [0]:
    where [get] raises on an empty result, [size] returns. *)
Theorem size_no_records (self : DBInfluxDB) (endpoint : string) (w : world B)
  (tables : list (list pydict)) (b : B) :
  bk_query_org
    (size_query (_resolve_bucket_measurement self endpoint).1
       (_resolve_bucket_measurement self endpoint).2)
    (org (config self)) (w_bk w) = (Ok tables, b) →
  concat tables = [] →
  (size bk_query_org py_add self endpoint w).1 = Ok (VInt 0).
Proof.
  intros Hq Hempty. unfold size.
  destruct (_resolve_bucket_measurement self endpoint) as [bucket m]. cbn [fst snd] in Hq.
  unfold bind, call, lift. rewrite Hq. cbn [fst].
  by rewrite count_tables_concat, Hempty.
Qed.

(** X14: when every record of the answer carries an int under [_value], and
    [+] on ints is addition, [size] is the sum of those ints over all the
    tables of the answer. *)
Theorem size_sum (self : DBInfluxDB) (endpoint : string) (w : world B)
  (tables : list (list pydict)) (b : B) (counts : list Z) :
  (∀ x y, py_add (VInt x) (VInt y) = Ok (VInt (x + y))) →
  bk_query_org
    (size_query (_resolve_bucket_measurement self endpoint).1
       (_resolve_bucket_measurement self endpoint).2)
    (org (config self)) (w_bk w) = (Ok tables, b) →
  Forall2 (λ record n, dict_get "_value" record = Some (VInt n)) (concat tables) counts →
  (size bk_query_org py_add self endpoint w).1 = Ok (VInt (foldr Z.add 0 counts)).
Proof.
  intros Hadd Hq Hvals. unfold size.
  destruct (_resolve_bucket_measurement self endpoint) as [bucket m]. cbn [fst snd] in Hq.
  unfold bind, call, lift. rewrite Hq. cbn [fst].
  rewrite count_tables_concat.
  assert (Hgen : ∀ acc, count_records py_add (VInt acc) (concat tables)
                        = Ok (VInt (acc + foldr Z.add 0 counts))); [|apply (Hgen 0)].
  induction Hvals as [|r n rs ns Hr _ IH]; intros acc; cbn.
  - by rewrite Z.add_0_r.
  - unfold get_value. rewrite Hr. cbn. rewrite Hadd. cbn. rewrite IH. by rewrite Z.add_assoc.
Qed.
End SizeFacts.

Lemma size_no_records_witness :
  (size server_query_org py_add_sample logged "db/cpu"
     (start {| failing := []; buckets := ["db"]; written := []; tables := [[]; []] |})).1
  = Ok (VInt 0).
Proof.
  apply (size_no_records server_query_org py_add_sample logged "db/cpu"
           (start {| failing := []; buckets := ["db"]; written := []; tables := [[]; []] |})
           [[]; []]
           {| failing := []; buckets := ["db"]; written := []; tables := [[]; []] |}).
  - vm_compute. reflexivity.
  - reflexivity.
Defined.

Lemma size_sum_witness :
  (size server_query_org py_add_sample logged "db/cpu"
     (start {| failing := []; buckets := ["db"]; written := [];
               tables := [[[("_field", VStr "load"); ("_value", VInt 4)]];
                          [[("_field", VStr "temp"); ("_value", VInt 3)]]] |})).1
  = Ok (VInt 7).
Proof.
  apply (size_sum server_query_org py_add_sample logged "db/cpu"
           (start {| failing := []; buckets := ["db"]; written := [];
                     tables := [[[("_field", VStr "load"); ("_value", VInt 4)]];
                                [[("_field", VStr "temp"); ("_value", VInt 3)]]] |})
           [[[("_field", VStr "load"); ("_value", VInt 4)]];
            [[("_field", VStr "temp"); ("_value", VInt 3)]]]
           {| failing := []; buckets := ["db"]; written := [];
              tables := [[[("_field", VStr "load"); ("_value", VInt 4)]];
                         [[("_field", VStr "temp"); ("_value", VInt 3)]]] |}
           [4; 3]).
  - intros x y. reflexivity.
  - vm_compute. reflexivity.
  - repeat constructor.
Defined.

(** ** The loader: untyped mappings, lists, known classes *)



Section LoaderMore.
Variable ObjMOSAIC_name : string.
Variable ObjMOSAIC_get_subclasses : list pyclass.

Local Abbreviation from_dict' := (from_dict ObjMOSAIC_name ObjMOSAIC_get_subclasses).
Local Abbreviation from_dict_items' :=
  (from_dict_items ObjMOSAIC_name ObjMOSAIC_get_subclasses).
Local Abbreviation from_dict_values' :=
  (from_dict_values ObjMOSAIC_name ObjMOSAIC_get_subclasses).

Lemma from_dict_items_keys d obj_copy :
  from_dict_items' d = Ok obj_copy → obj_copy.*1 = d.*1.
Proof.
  revert obj_copy. induction d as [|[k x] d IH]; intros obj_copy.
  { by intros [= <-]. }
  unfold from_dict_items. cbn.
  destruct (from_dict' x) as [x'|]; [|done]. cbn.
  fold (from_dict_items' d).
  destruct (from_dict_items' d) as [d'|]; [|done]. cbn.
  intros [= <-]. cbn. by rewrite (IH d').
Qed.

(** X15: a mapping without the key [cls] is handed back as it came: its
    values are built, and an error in one of them is raised, but what was
    built is dropped, so a typed mapping nested inside stays a mapping. *)
Theorem from_dict_untyped (d : pydict) :
  dict_get "cls" d = None →
  from_dict' (VDict d)
  = match from_dict_items' d with
    | Ok _ => Ok (VDict d)
    | Raise e => Raise e
    end.
Proof.
  intros Hcls. rewrite from_dict_VDict.
  destruct (from_dict_items' d) as [obj_copy|e] eqn:Hitems; [|done]. cbn [rbind].
  apply from_dict_items_keys in Hitems.
  apply dict_get_None_keys in Hcls. rewrite <- Hitems in Hcls.
  apply dict_get_None_keys in Hcls. by rewrite Hcls.
Qed.

Lemma result_map_Ok {A C} (f : A → result C) (xs : list A) (ys : list C) :
  result_map f xs = Ok ys ↔ Forall2 (λ x y, f x = Ok y) xs ys.
Proof.
  revert ys. induction xs as [|x xs IH]; intros ys; cbn.
  - split; [intros [= <-]; constructor|]. by intros ->%Forall2_nil_inv_l.
  - split.
    + destruct (f x) as [y|] eqn:Hx; [|done]. cbn.
      destruct (result_map f xs) as [ys'|] eqn:Hxs; [|done]. cbn.
      intros [= <-]. constructor; [done|by apply IH].
    + intros (y & ys' & Hy & Hys & ->)%Forall2_cons_inv_l.
      rewrite Hy. cbn. apply IH in Hys. by rewrite Hys.
Qed.

(** X16: a list loads exactly when each of its elements loads, and the
    result is the list of the loaded elements, in the same order and
    number. *)
Theorem from_dict_list_elementwise (l : list pyval) (v : pyval) :
  from_dict' (VList l) = Ok v
  ↔ ∃ l', v = VList l' ∧ Forall2 (λ x y, from_dict' x = Ok y) l l'.
Proof.
  rewrite from_dict_VList. unfold from_dict_values. split.
  - destruct (result_map from_dict' l) as [l'|] eqn:Hl; [|done]. cbn.
    intros [= <-]. exists l'. split; [done|]. by apply result_map_Ok.
  - intros (l' & -> & Hl). apply result_map_Ok in Hl. by rewrite Hl.
Qed.

End LoaderMore.


Lemma from_dict_untyped_witness :
  from_dict "ObjMOSAIC" two_classes
    (VDict [("job", VDict [("cls", VStr "Job"); ("name", VStr "nightly")])])
  = Ok (VDict [("job", VDict [("cls", VStr "Job"); ("name", VStr "nightly")])]).
Proof.
  apply (from_dict_untyped "ObjMOSAIC" two_classes
           [("job", VDict [("cls", VStr "Job"); ("name", VStr "nightly")])]).
  reflexivity.
Defined.

(** ** [dict()], the name table and [from_yaml] *)





(** X19: the name table maps a name to a class of the subclass list that
    bears it, to the last such class when several do, and to nothing when
    none does. *)
Theorem cls_sub_dict_lookup (subclasses : list pyclass) (n : string) :
  cls_sub_dict subclasses !! n
  = last (List.filter (λ cls, bool_decide (cls_name cls = n)) subclasses).
Proof.
  unfold cls_sub_dict.
  assert (Hgen : ∀ l (m : gmap string pyclass),
            foldl (λ m cls, <[cls_name cls := cls]> m) m l !! n
            = match last (List.filter (λ cls, bool_decide (cls_name cls = n)) l) with
              | Some c => Some c
              | None => m !! n
              end).
  { induction l as [|c l IH]; intros m; [done|].
    cbn [foldl List.filter]. rewrite IH.
    case_bool_decide as Hc.
    - destruct (List.filter _ l) as [|c' l'] eqn:Hf; cbn.
      + by rewrite <- Hc, lookup_insert_eq.
      + destruct (last (c' :: l')) eqn:Hl; [done|]. by apply last_None in Hl.
    - destruct (last (List.filter _ l)); [done|]. by rewrite lookup_insert_ne. }
  rewrite Hgen. by destruct (last _).
Qed.

Section FromYamlFacts.
Variable ObjMOSAIC_name : string.
Variable ObjMOSAIC_get_subclasses : list pyclass.

Lemma dict_set_set {V} (k : string) (v1 v2 : V) (d : list (string * V)) :
  dict_set k v2 (dict_set k v1 d) = dict_set k v2 d.
Proof.
  induction d as [|[k' v'] d IH]; cbn.
  - by rewrite decide_True.
  - destruct (decide (k = k')) as [->|Hne]; cbn.
    + by rewrite decide_True.
    + by rewrite decide_False, IH.
Qed.

(** X20: the discriminator [from_yaml] loads a mapping with: the forced one
    when [cls_attr] is given, whatever the document says; otherwise the
    document's own; and the name of the class [from_yaml] is called on only
    when [add_cls] is set and the document has none. *)
Theorem from_yaml_document_discriminator (cls_name : string) (d : pydict)
  (add_cls : bool) (cls_attr : option string) :
  from_yaml_document ObjMOSAIC_name ObjMOSAIC_get_subclasses cls_name (VDict d)
    add_cls None cls_attr
  = from_dict ObjMOSAIC_name ObjMOSAIC_get_subclasses
      (VDict (match cls_attr with
              | Some (String _ _ as forced) => dict_set "cls" (VStr forced) d
              | _ =>
                  if add_cls && negb (dict_in "cls" d)
                  then dict_set "cls" (VStr cls_name) d
                  else d
              end)).
Proof.
  unfold from_yaml_document. cbn [truthy rbind py_setdefault py_setitem].
  destruct add_cls; cbn [rbind py_setdefault andb].
  - destruct (dict_in "cls" d) eqn:Hin; cbn [negb];
      destruct cls_attr as [[|a forced]|]; cbn [truthy rbind py_setitem default]; try done.
    by rewrite dict_set_set.
  - by destruct cls_attr as [[|a forced]|].
Qed.

(** X21: a document that is not a mapping (an empty file, a list, a scalar)
    never loads through [from_yaml] with [add_cls] set: the call raises
    before [from_dict] is reached. *)
Theorem from_yaml_document_not_mapping (cls_name : string) (obj_dict : pyval)
  (attr_header cls_attr : option string) :
  (∀ d, obj_dict ≠ VDict d) →
  truthy attr_header = false →
  ∃ e, from_yaml_document ObjMOSAIC_name ObjMOSAIC_get_subclasses cls_name obj_dict
         true attr_header cls_attr = Raise e
       ∧ exn_cls e = OtherError "AttributeError".
Proof.
  intros Hnot Hhead. unfold from_yaml_document. rewrite Hhead. cbn [rbind].
  destruct obj_dict; try (eexists; split; reflexivity).
  by destruct (Hnot d).
Qed.
End FromYamlFacts.

Lemma from_yaml_document_not_mapping_witness :
  ∃ e, from_yaml_document "ObjMOSAIC" two_classes "Job" VNone true None None = Raise e
       ∧ exn_cls e = OtherError "AttributeError".
Proof.
  apply (from_yaml_document_not_mapping "ObjMOSAIC" two_classes "Job" VNone None None).
  - discriminate.
  - reflexivity.
Defined.

(** ** The relational adapter's statements *)





Section MySQLFacts.
Context {C : Type} (api : mysql_api C).




(** X24: when the statement of a [query] fails with the connector's [Error],
    [query] answers the empty list, logs the error, and stops there: nothing
    is fetched and the cursor is not closed. *)
Theorem query_failed_statement (self : DBMySQL) (sql : string)
  (params : option (list pyval)) (w : world C) (c1 c2 : C) (e : exn) :
  my_cursor api true (w_bk w) = (Ok (), c1) →
  my_execute api sql (default [] params) c1 = (Raise e, c2) →
  exn_cls e = MySQLError →
  MySQLQueries.query api self sql params w
  = (Ok [],
     World (w_log w ++ if my_logger self
                       then [(ERROR, "Failed to execute query: " +:+ exn_msg e)]
                       else [])
           (w_out w) c2).
Proof.
  intros Hcur Hex He. unfold MySQLQueries.query, try_except_cls, bind, call.
  rewrite Hcur. cbn [w_bk]. rewrite Hex. rewrite decide_True by done.
  by rewrite log_world.
Qed.
End MySQLFacts.





Lemma query_failed_statement_witness :
  MySQLQueries.query mysql_server_api mytestdb "SELECT * FROM users;" None
    (World [] [] {| my_failing := ["execute"]; my_rows := [[("name", VStr "Alice")]];
                    my_statements := [] |})
  = (Ok [],
     World [] [] {| my_failing := ["execute"]; my_rows := [[("name", VStr "Alice")]];
                    my_statements := [] |}).
Proof.
  apply (query_failed_statement mysql_server_api mytestdb "SELECT * FROM users;" None
           (World [] [] {| my_failing := ["execute"];
                           my_rows := [[("name", VStr "Alice")]]; my_statements := [] |})
           {| my_failing := ["execute"]; my_rows := [[("name", VStr "Alice")]];
              my_statements := [] |}
           {| my_failing := ["execute"]; my_rows := [[("name", VStr "Alice")]];
              my_statements := [] |}
           (Exn MySQLError "2013: Lost connection during execute")).
  - vm_compute. reflexivity.
  - vm_compute. reflexivity.
  - reflexivity.
Defined.

(** The statements the tutorial's calls build. *)
Example insert_sql_tutorial :
  MySQLQueries.insert_sql "users"
    [("name", VStr "Alice Wonderland"); ("email", VStr "alice@example.com")]
  = "INSERT INTO users (name, email) VALUES (%s, %s)".
Proof. reflexivity. Qed.

Example update_sql_tutorial :
  MySQLQueries.update_sql "users" [("email", VStr "newalice@example.com")]
    "name = 'Alice Wonderland'"
  = "UPDATE users SET email = %s WHERE name = 'Alice Wonderland'".
Proof. reflexivity. Qed.

(** ** Endpoints of the form bucket/measurement *)

Lemma str_partition_no_sep sep s :
  str_contains sep s = false → str_partition sep s = (s, None).
Proof.
  induction s as [|a s IH]; [done|]. cbn.
  destruct (decide (a = sep)); [done|]. intros Hs. by rewrite IH.
Qed.

Lemma str_partition_sep sep b r :
  str_contains sep b = false →
  str_partition sep (b +:+ String sep r) = (b, Some r).
Proof.
  induction b as [|a b IH]; cbn.
  - by rewrite decide_True.
  - destruct (decide (a = sep)); [done|]. intros Hb. by rewrite IH.
Qed.

(** X25: an adapter without explicit name resolves an endpoint
    [bucket/measurement] whose two parts hold no slash to exactly that bucket
    and that measurement, and an endpoint without any slash to itself as the
    bucket, with no measurement. *)
Theorem resolve_bucket_slash_measurement (self : DBInfluxDB) (b m : string) :
  truthy (name self) = false →
  str_contains slash b = false →
  str_contains slash m = false →
  _resolve_bucket_measurement self (b +:+ "/" +:+ m) = (b, Some m)
  ∧ _resolve_bucket_measurement self b = (b, None).
Proof.
  intros Hname Hb Hm. rewrite !resolve_by_partition.
  assert (Hcase : ∀ ep, match name self with
                        | Some (String _ _ as n) => (n, Some ep)
                        | _ =>
                            let '(bucket, rest) := str_partition slash ep in
                            (bucket, (λ r, (str_partition slash r).1) <$> rest)
                        end
                        = let '(bucket, rest) := str_partition slash ep in
                          (bucket, (λ r, (str_partition slash r).1) <$> rest)).
  { intros ep. by destruct (name self) as [[|c n]|]. }
  rewrite !Hcase. split.
  - change (b +:+ "/" +:+ m) with (b +:+ String slash m).
    rewrite str_partition_sep by done. cbn. by rewrite str_partition_no_sep.
  - by rewrite str_partition_no_sep.
Qed.

Lemma resolve_bucket_slash_measurement_witness :
  _resolve_bucket_measurement unnamed "db/cpu" = ("db", Some "cpu")
  ∧ _resolve_bucket_measurement unnamed "db" = ("db", None).
Proof.
  apply (resolve_bucket_slash_measurement unnamed "db" "cpu"); reflexivity.
Defined.
